(** * Beot: the session timer (ui/timer.go) and the streak calculator
      (db sessions statistics, calculateStreaks), shallowly embedded.

    Go's [int] is a 64-bit two's complement integer; it is modelled as [Z]
    with its wrap-around written out in [Int64].  Times are modelled as
    whole seconds or whole UTC days ([Z]); the Bubble Tea runtime is a
    list of pending timer messages that the user and the clock drive. *)

From Stdlib Require Import ZArith List Ascii String Bool Lia.
From Stdlib Require Import Sorting.Sorted Sorting.Permutation.
Import ListNotations.
Open Scope Z_scope.
Set Warnings "-register-all".

(** ** Go's 64-bit [int] *)
Module Int64.

Definition modulus : Z := 2 ^ 64.
Definition max_int : Z := 2 ^ 63 - 1.
Definition min_int : Z := - 2 ^ 63.

(** Two's complement wrap-around of a mathematical integer. *)
Definition wrap (z : Z) : Z :=
  let r := z mod modulus in
  if r <=? max_int then r else r - modulus.

Definition mul (a b : Z) : Z := wrap (a * b).
Definition sub (a b : Z) : Z := wrap (a - b).

End Int64.

(** ** Messages, commands and collaborators of the timer *)

(** [TimerCompleteMsg]: the session outcome handed to the application. *)
Record TimerCompleteMsg := {
  Completed : bool;
  SubjectID : string;
  SubjectName : string;
  Duration : Z;
  StartedAt : Z
}.

Inductive DisplayMode := DisplayModeQuotes | DisplayModePoems.

(** [db.Quote] and [db.Poem], restricted to the fields the timer reads. *)
Record Quote := { quote_Text : string; quote_Source : string }.
Record Poem := {
  poem_OldEnglish : string;
  poem_ModernEnglish : string;
  poem_Source : string;
  poem_LineRef : string
}.

(** A Go call returning [( *T, error)]: the pointer ([None] is [nil]) and
    the error ([None] is [nil]). *)
Definition GoResult (A : Type) : Type := option A * option string.

(** The test [err != nil || x == nil] of the content loaders. *)
Definition lookup_failed {A : Type} (ans : GoResult A) : bool :=
  match ans with
  | (Some _, None) => false
  | _ => true
  end.

(** What the persistence collaborator answers when the timer asks it for
    content during one call of [Update] (or of the constructor):
    [db.GetRandomQuoteForSubject] and [db.GetRandomPoem]. *)
Record DbAnswer := {
  quote_answer : GoResult Quote;
  poem_answer : GoResult Poem
}.

(** The messages the timer's [Update] distinguishes: [tea.KeyMsg] (by its
    [String()]), [tickMsg], [quoteTickMsg], [progress.FrameMsg], and any
    other message (ignored).  The time carried by the ticks is never
    read. *)
Inductive Msg :=
| KeyMsg (k : string)
| TickMsg
| QuoteTickMsg
| FrameMsg
| OtherMsg.

(** The [tea.Cmd] values the timer returns: [nil], [tickCmd()],
    [quoteTickCmd()], [tea.Batch], [tea.Quit], a closure returning a
    [TimerCompleteMsg], and the progress bar's animation command. *)
Inductive Cmd :=
| CmdNone
| CmdTick
| CmdQuoteTick
| CmdBatch (cs : list Cmd)
| CmdQuit
| CmdEmit (o : TimerCompleteMsg)
| CmdFrame.

(** ** The timer model (TimerModel, NewTimerModelWithMode, Update) *)
Section Timer.

(** [progress.Model] of the bubbles library: its state and its [Update]
    on a [FrameMsg] (the new state, and whether it asks for a further
    animation frame) are those of the library, left abstract. *)
Context {Progress : Type}.
Context (progress_New : Progress).
Context (progress_Update : Progress -> Progress * bool).

Record TimerModel := {
  totalSeconds : Z;
  remainingSeconds : Z;
  running : bool;
  progress : Progress;
  confirming : bool;
  currentQuote : string;
  currentSource : string;
  currentOldEnglish : string;
  currentModernEnglish : string;
  currentPoemSource : string;
  currentPoemLineRef : string;
  displayMode : DisplayMode;
  subjectID : string;
  subjectName : string;
  startedAt : Z
}.

(** Field assignments [m.f = v] used by the code. *)
Definition set_remaining (m : TimerModel) (r : Z) : TimerModel :=
  {| totalSeconds := totalSeconds m; remainingSeconds := r;
     running := running m; progress := progress m;
     confirming := confirming m; currentQuote := currentQuote m;
     currentSource := currentSource m;
     currentOldEnglish := currentOldEnglish m;
     currentModernEnglish := currentModernEnglish m;
     currentPoemSource := currentPoemSource m;
     currentPoemLineRef := currentPoemLineRef m;
     displayMode := displayMode m; subjectID := subjectID m;
     subjectName := subjectName m; startedAt := startedAt m |}.

Definition set_running (m : TimerModel) (b : bool) : TimerModel :=
  {| totalSeconds := totalSeconds m; remainingSeconds := remainingSeconds m;
     running := b; progress := progress m;
     confirming := confirming m; currentQuote := currentQuote m;
     currentSource := currentSource m;
     currentOldEnglish := currentOldEnglish m;
     currentModernEnglish := currentModernEnglish m;
     currentPoemSource := currentPoemSource m;
     currentPoemLineRef := currentPoemLineRef m;
     displayMode := displayMode m; subjectID := subjectID m;
     subjectName := subjectName m; startedAt := startedAt m |}.

Definition set_confirming (m : TimerModel) (b : bool) : TimerModel :=
  {| totalSeconds := totalSeconds m; remainingSeconds := remainingSeconds m;
     running := running m; progress := progress m;
     confirming := b; currentQuote := currentQuote m;
     currentSource := currentSource m;
     currentOldEnglish := currentOldEnglish m;
     currentModernEnglish := currentModernEnglish m;
     currentPoemSource := currentPoemSource m;
     currentPoemLineRef := currentPoemLineRef m;
     displayMode := displayMode m; subjectID := subjectID m;
     subjectName := subjectName m; startedAt := startedAt m |}.

Definition set_progress (m : TimerModel) (p : Progress) : TimerModel :=
  {| totalSeconds := totalSeconds m; remainingSeconds := remainingSeconds m;
     running := running m; progress := p;
     confirming := confirming m; currentQuote := currentQuote m;
     currentSource := currentSource m;
     currentOldEnglish := currentOldEnglish m;
     currentModernEnglish := currentModernEnglish m;
     currentPoemSource := currentPoemSource m;
     currentPoemLineRef := currentPoemLineRef m;
     displayMode := displayMode m; subjectID := subjectID m;
     subjectName := subjectName m; startedAt := startedAt m |}.

Definition set_quote (m : TimerModel) (text source : string) : TimerModel :=
  {| totalSeconds := totalSeconds m; remainingSeconds := remainingSeconds m;
     running := running m; progress := progress m;
     confirming := confirming m; currentQuote := text;
     currentSource := source;
     currentOldEnglish := currentOldEnglish m;
     currentModernEnglish := currentModernEnglish m;
     currentPoemSource := currentPoemSource m;
     currentPoemLineRef := currentPoemLineRef m;
     displayMode := displayMode m; subjectID := subjectID m;
     subjectName := subjectName m; startedAt := startedAt m |}.

Definition set_poem (m : TimerModel) (oe me src lref : string) : TimerModel :=
  {| totalSeconds := totalSeconds m; remainingSeconds := remainingSeconds m;
     running := running m; progress := progress m;
     confirming := confirming m; currentQuote := currentQuote m;
     currentSource := currentSource m;
     currentOldEnglish := oe;
     currentModernEnglish := me;
     currentPoemSource := src;
     currentPoemLineRef := lref;
     displayMode := displayMode m; subjectID := subjectID m;
     subjectName := subjectName m; startedAt := startedAt m |}.

(** ["\n"] *)
Definition nl : string := String (Ascii.ascii_of_nat 10) EmptyString.

Definition default_quote : string := "Focus on your task.".

(** The built-in passage of [loadRandomPoem] (Beowulf, lines 572-573). *)
Definition default_OldEnglish : string :=
  "Wyrd oft nereð" ++ nl ++ "unfǽgne eorl, þonne his ellen déah".
Definition default_ModernEnglish : string :=
  "Fate often saves" ++ nl ++ "an undoomed man, when his courage holds".
Definition default_PoemSource : string := "Beowulf".
Definition default_PoemLineRef : string := "lines 572-573".

(** [func (m *TimerModel) loadRandomQuote()]: [ans] is what
    [db.GetRandomQuoteForSubject(m.subjectName)] returns. *)
Definition loadRandomQuote (ans : GoResult Quote) (m : TimerModel)
  : TimerModel :=
  match ans with
  | (Some q, None) => set_quote m (quote_Text q) (quote_Source q)
  | _ => set_quote m default_quote ""
  end.

(** [func (m *TimerModel) loadRandomPoem()]: [ans] is what
    [db.GetRandomPoem()] returns. *)
Definition loadRandomPoem (ans : GoResult Poem) (m : TimerModel)
  : TimerModel :=
  match ans with
  | (Some p, None) =>
      set_poem m (poem_OldEnglish p) (poem_ModernEnglish p)
        (poem_Source p) (poem_LineRef p)
  | _ =>
      set_poem m default_OldEnglish default_ModernEnglish
        default_PoemSource default_PoemLineRef
  end.

Definition loadRandomContent (db : DbAnswer) (m : TimerModel) : TimerModel :=
  match displayMode m with
  | DisplayModePoems => loadRandomPoem (poem_answer db) m
  | DisplayModeQuotes => loadRandomQuote (quote_answer db) m
  end.

(** [NewTimerModelWithMode(minutes, subjectID, subjectName, mode)];
    [now] is [time.Now()] and [db] the collaborator's answer to the
    initial content lookup. *)
Definition NewTimerModelWithMode (db : DbAnswer) (now : Z) (minutes : Z)
  (sid sname : string) (mode : DisplayMode) : TimerModel :=
  let seconds := Int64.mul minutes 60 in
  let m := {| totalSeconds := seconds; remainingSeconds := seconds;
              running := true; progress := progress_New;
              confirming := false; currentQuote := "";
              currentSource := ""; currentOldEnglish := "";
              currentModernEnglish := ""; currentPoemSource := "";
              currentPoemLineRef := ""; displayMode := mode;
              subjectID := sid; subjectName := sname;
              startedAt := now |} in
  match mode with
  | DisplayModePoems => loadRandomPoem (poem_answer db) m
  | DisplayModeQuotes => loadRandomQuote (quote_answer db) m
  end.

(** [func (m TimerModel) Init() tea.Cmd] *)
Definition Init (m : TimerModel) : Cmd := CmdBatch [CmdTick; CmdQuoteTick].

(** The [TimerCompleteMsg] built by the closures of [Update]
    ([Duration: m.totalSeconds / 60], Go's truncating division). *)
Definition complete_msg (m : TimerModel) (completed : bool)
  : TimerCompleteMsg :=
  {| Completed := completed; SubjectID := subjectID m;
     SubjectName := subjectName m; Duration := Z.quot (totalSeconds m) 60;
     StartedAt := startedAt m |}.

(** [func (m TimerModel) Update(msg tea.Msg) (tea.Model, tea.Cmd)].
    [db] is the collaborator's answer, used only by [loadRandomContent].
    The terminal bell ([fmt.Print("\a")]) is not modelled. *)
Definition Update (db : DbAnswer) (m : TimerModel) (msg : Msg)
  : TimerModel * Cmd :=
  match msg with
  | KeyMsg k =>
      if remainingSeconds m <=? 0 then (m, CmdEmit (complete_msg m true))
      else if confirming m then
        if String.eqb k "y" then (m, CmdEmit (complete_msg m false))
        else if String.eqb k "n" || String.eqb k "esc" then
          (set_running (set_confirming m false) true, CmdTick)
        else (m, CmdNone)
      else if String.eqb k "ctrl+c" then (m, CmdQuit)
      else if String.eqb k "q" then
        (set_running (set_confirming m true) false, CmdNone)
      else if String.eqb k " " then
        let m' := set_running m (negb (running m)) in
        if running m' then (m', CmdTick) else (m', CmdNone)
      else if String.eqb k "r" then
        (set_running (set_remaining m (totalSeconds m)) true, CmdTick)
      else (m, CmdNone)
  | TickMsg =>
      if running m && (0 <? remainingSeconds m) then
        let m' := set_remaining m (Int64.sub (remainingSeconds m) 1) in
        if remainingSeconds m' <=? 0 then
          let m'' := set_running m' false in
          (m'', CmdEmit (complete_msg m'' true))
        else (m', CmdTick)
      else (m, CmdNone)
  | QuoteTickMsg =>
      if running m then (loadRandomContent db m, CmdQuoteTick)
      else (m, CmdNone)
  | FrameMsg =>
      let (p, more) := progress_Update (progress m) in
      (set_progress m p, if more then CmdFrame else CmdNone)
  | OtherMsg => (m, CmdNone)
  end.

(** ** The Bubble Tea runtime around one timer session

    The runtime keeps the timer, the wake-ups scheduled by its commands
    and not yet delivered ([tea.Tick] schedules exactly one message), and
    the outcomes handed to the application.  [rt_rotations] is a ghost
    counter of the [Update] calls that took the [loadRandomContent] branch
    (a [quoteTickMsg] received while [m.running]). *)
Record Runtime := {
  rt_timer : TimerModel;
  rt_pending : list Msg;
  rt_outcomes : list TimerCompleteMsg;
  rt_rotations : nat
}.

(** The wake-ups and the outcomes a command produces. *)
Fixpoint schedule (c : Cmd) : list Msg * list TimerCompleteMsg :=
  match c with
  | CmdNone | CmdQuit => ([], [])
  | CmdTick => ([TickMsg], [])
  | CmdQuoteTick => ([QuoteTickMsg], [])
  | CmdFrame => ([FrameMsg], [])
  | CmdEmit o => ([], [o])
  | CmdBatch cs =>
      (fix go (cs : list Cmd) : list Msg * list TimerCompleteMsg :=
         match cs with
         | [] => ([], [])
         | c :: cs' =>
             let (ms1, os1) := schedule c in
             let (ms2, os2) := go cs' in
             (ms1 ++ ms2, os1 ++ os2)
         end) cs
  end.

Definition is_QuoteTickMsg (msg : Msg) : bool :=
  match msg with QuoteTickMsg => true | _ => false end.

(** The number of pending content-rotation wake-ups. *)
Definition qcount (l : list Msg) : nat :=
  List.length (filter is_QuoteTickMsg l).

Definition is_TickMsg (msg : Msg) : bool :=
  match msg with TickMsg => true | _ => false end.

(** The number of pending one-second wake-ups. *)
Definition tcount (l : list Msg) : nat :=
  List.length (filter is_TickMsg l).

(** One message handed to the timer's [Update]; [rest] are the wake-ups
    still pending. *)
Definition deliver (db : DbAnswer) (s : Runtime) (msg : Msg) (rest : list Msg)
  : Runtime :=
  let (m', c) := Update db (rt_timer s) msg in
  let (ms, os) := schedule c in
  {| rt_timer := m';
     rt_pending := rest ++ ms;
     rt_outcomes := rt_outcomes s ++ os;
     rt_rotations :=
       if is_QuoteTickMsg msg && running (rt_timer s)
       then S (rt_rotations s) else rt_rotations s |}.

(** What can happen next: a key press, the [i]-th pending wake-up fires
    (in any order: the model does not fix the clock), or another
    message. *)
Inductive Event :=
| EvKey (k : string)
| EvFire (i : nat)
| EvOther.

Fixpoint remove_nth (i : nat) (l : list Msg) : list Msg :=
  match i, l with
  | _, [] => []
  | O, _ :: l' => l'
  | S i', x :: l' => x :: remove_nth i' l'
  end.

Definition rt_step (db : DbAnswer) (s : Runtime) (e : Event) : Runtime :=
  match e with
  | EvKey k => deliver db s (KeyMsg k) (rt_pending s)
  | EvOther => deliver db s OtherMsg (rt_pending s)
  | EvFire i =>
      match nth_error (rt_pending s) i with
      | Some msg => deliver db s msg (remove_nth i (rt_pending s))
      | None => s
      end
  end.

Fixpoint run (tr : list (DbAnswer * Event)) (s : Runtime) : Runtime :=
  match tr with
  | [] => s
  | (db, e) :: tr' => run tr' (rt_step db s e)
  end.

(** A session starts as in [AppModel.Update] on [SubjectSelectedMsg]: the
    timer is built and its [Init] command is run. *)
Definition start_session (db : DbAnswer) (now minutes : Z) (sid sname : string)
  (mode : DisplayMode) : Runtime :=
  let m := NewTimerModelWithMode db now minutes sid sname mode in
  let (ms, os) := schedule (Init m) in
  {| rt_timer := m; rt_pending := ms; rt_outcomes := os;
     rt_rotations := 0 |}.

(** A session started while wake-ups that earlier commands scheduled
    ([leftover]) are still in flight: [tea.Tick] cannot be cancelled, so
    they are delivered to the new timer when they fire. *)
Definition start_session_after (leftover : list Msg) (db : DbAnswer)
  (now minutes : Z) (sid sname : string) (mode : DisplayMode) : Runtime :=
  let s := start_session db now minutes sid sname mode in
  {| rt_timer := rt_timer s; rt_pending := leftover ++ rt_pending s;
     rt_outcomes := rt_outcomes s; rt_rotations := rt_rotations s |}.

(** Timer models reachable from [NewTimerModelWithMode] with [minutes]
    through any sequence of messages. *)
Inductive Reachable (minutes : Z) : TimerModel -> Prop :=
| reach_new db now sid sname mode :
    Reachable minutes (NewTimerModelWithMode db now minutes sid sname mode)
| reach_step db m msg :
    Reachable minutes m -> Reachable minutes (fst (Update db m msg)).

(** The states of the specification's state machine, read off the
    fields in the order [Update] tests them. *)
Inductive TimerState := Running | Paused | ConfirmingAbandon | Complete.

Definition timer_state (m : TimerModel) : TimerState :=
  if remainingSeconds m <=? 0 then Complete
  else if confirming m then ConfirmingAbandon
  else if running m then Running
  else Paused.

(** The countdown part of the state: total, remaining, running flag and
    confirming flag. *)
Definition countdown (m : TimerModel) : Z * Z * bool * bool :=
  (totalSeconds m, remainingSeconds m, running m, confirming m).

End Timer.

(** ** The streak calculator ([calculateStreaks] in the db package)

    A completion date is the UTC day number of a completed session's
    [CompletedAt] ([Format("2006-01-02")] then [time.Parse], a UTC
    midnight); [today] is the day number of [time.Now().Truncate(24h)],
    and [yesterday] is [today - 1] (the model assumes no daylight-saving
    change between the two local dates used by [AddDate(0, 0, -1)]).
    Between two such midnights [prev.Sub(curr).Hours() / 24] is the
    difference of the day numbers. *)
Module Streaks.

(** The inner loop of the exchange sort, [for j := i + 1; ...], on the
    suffix [sortedDays[i:]]: [cur] is [sortedDays[i]], [rest] the
    elements after it.  Whenever [sortedDays[j].After(sortedDays[i])] the
    two are swapped: the larger one becomes [sortedDays[i]] and the old
    [sortedDays[i]] takes position [j]. *)
Fixpoint inner (cur : Z) (rest : list Z) : Z * list Z :=
  match rest with
  | [] => (cur, [])
  | x :: xs =>
      if cur <? x then
        let (c, r) := inner x xs in (c, cur :: r)
      else
        let (c, r) := inner cur xs in (c, x :: r)
  end.

(** The outer loop [for i := 0; i < len(sortedDays)-1; i++]: after the
    inner loop position [i] is final and the loop goes on with the
    suffix.  [fuel] is the number of positions left. *)
Fixpoint sort_pass (fuel : nat) (l : list Z) : list Z :=
  match fuel, l with
  | S f, x :: xs => let (c, r) := inner x xs in c :: sort_pass f r
  | _, _ => l
  end.

(** "Sort descending (most recent first)" *)
Definition sortDescending (l : list Z) : list Z := sort_pass (List.length l) l.

(** The loop of the current streak after its first day:
    [if diff == 1 { currentStreak++ } else { break }]. *)
Fixpoint current_run (prev : Z) (rest : list Z) : Z :=
  match rest with
  | [] => 0
  | curr :: rest' => if prev - curr =? 1 then 1 + current_run curr rest' else 0
  end.

(** Instants are seconds since the Unix epoch.  A date of [sortedDays]
    is a day number [d]: [time.Parse("2006-01-02", ...)] gives the UTC
    midnight [day_instant d]. *)
Definition day_instant (d : Z) : Z := d * 86400.

(** [t.Truncate(24 * time.Hour)]: rounding down to a multiple of a day
    since Go's zero time, itself a UTC midnight, so to a UTC midnight. *)
Definition Truncate_day (t : Z) : Z := t / 86400 * 86400.

(** The local time zone [time.Local]: its offset from UTC, in seconds, at
    each instant. *)
Definition Zone := Z -> Z.

(** [time.Date] in the zone [loc] of a wall clock given in seconds as if
    it were UTC: the offset is looked up at the wall clock read as an
    instant, and looked up again at the instant this gives when that lies
    outside the zone period found (both give [loc] of that instant). *)
Definition zone_date (loc : Zone) (wall : Z) : Z := wall - loc (wall - loc wall).

(** [t.AddDate(0, 0, days)] for a time in [loc]: the same wall clock
    [days] calendar days later, normalised by [time.Date]. *)
Definition AddDate_days (loc : Zone) (t days : Z) : Z :=
  zone_date loc (t + loc t + days * 86400).

(** The current streak: [today := time.Now().Truncate(24 * time.Hour)]
    keeps [time.Local], so [yesterday := today.AddDate(0, 0, -1)] is one
    local calendar day earlier; [Equal] compares instants. *)
Definition currentStreak (loc : Zone) (now : Z) (sortedDays : list Z) : Z :=
  let today := Truncate_day now in
  let yesterday := AddDate_days loc today (-1) in
  match sortedDays with
  | [] => 0
  | mostRecent :: rest =>
      let mostRecentT := Truncate_day (day_instant mostRecent) in
      if (mostRecentT =? today) || (mostRecentT =? yesterday)
      then 1 + current_run mostRecent rest
      else 0
  end.

(** The loop of the longest streak, with its running [streak] and
    [longestStreak]; the last comparison after the loop is the [[]]
    case. *)
Fixpoint longest_loop (prev : Z) (rest : list Z) (streak longest : Z) : Z :=
  match rest with
  | [] => if streak >? longest then streak else longest
  | curr :: rest' =>
      if prev - curr =? 1 then longest_loop curr rest' (streak + 1) longest
      else longest_loop curr rest' 1
             (if streak >? longest then streak else longest)
  end.

Definition longestStreak (sortedDays : list Z) : Z :=
  match sortedDays with
  | [] => 0
  | d :: rest => longest_loop d rest 1 0
  end.

(** The keys of the map [days], in the (unspecified) order Go's map
    iteration yields them: each completion date exactly once. *)
Definition map_iteration (sessions keys : list Z) : Prop :=
  NoDup keys /\ forall d, In d keys <-> In d sessions.

(** [calculateStreaks] after the database query: [sessions] are the
    completion dates of the completed sessions (the query errors, which
    return [(0, 0)], are not modelled), [keys] the iteration order of
    the map [days], [loc] the local zone and [now] is [time.Now()]. *)
Definition calculateStreaks (loc : Zone) (now : Z) (sessions keys : list Z)
  : Z * Z :=
  match sessions with
  | [] => (0, 0)
  | _ :: _ =>
      let sortedDays := sortDescending keys in
      (currentStreak loc now sortedDays, longestStreak sortedDays)
  end.

(** *** The algorithm of the specification (section 4.2), as a second
    definition to compare with the code. *)




(** Lengths of the maximal runs of consecutive days of a descending
    list, most recent run first. *)
Fixpoint runs (l : list Z) : list Z :=
  match l with
  | [] => []
  | x :: t =>
      let rs := runs t in
      match t, rs with
      | y :: _, n :: ns => if x - y =? 1 then (n + 1) :: ns else 1 :: n :: ns
      | _, _ => [1]
      end
  end.


End Streaks.

(** * The executable's entry point ([main.go]) *)

Module Main.

(** The [model] of [main.go]: a plain countdown. *)
Record model := mk_model {
  m_totalSeconds : Z;
  m_remainingSeconds : Z;
  m_running : bool
}.

Definition newModel (minutes : Z) : model :=
  let seconds := Int64.mul minutes 60 in
  mk_model seconds seconds false.



End Main.

(** * The persistence collaborator (package db), as in-memory collections

    A collection is the list of its documents in insertion order.  The
    driver calls are modelled by what they do on the documents; a failed
    call is an explicit input.  Object ids are their [Hex()] strings. *)
Module Db.

Local Open Scope string_scope.
Local Open Scope list_scope.
Local Open Scope Z_scope.

(** [primitive.ObjectIDFromHex]: 24 hexadecimal digits (either case),
    decoded; the id is kept as its lowercase [Hex()] string.  Anything
    else gives [NilObjectID] and an error. *)
Definition is_hex_digit (c : Ascii.ascii) : bool :=
  let n := Ascii.nat_of_ascii c in
  (Nat.leb 48 n && Nat.leb n 57) || (Nat.leb 97 n && Nat.leb n 102) ||
  (Nat.leb 65 n && Nat.leb n 70).

Definition lower_hex (c : Ascii.ascii) : Ascii.ascii :=
  let n := Ascii.nat_of_ascii c in
  if Nat.leb 65 n && Nat.leb n 70 then Ascii.ascii_of_nat (n + 32) else c.

Fixpoint string_forallb (f : Ascii.ascii -> bool) (s : string) : bool :=
  match s with
  | EmptyString => true
  | String c s' => f c && string_forallb f s'
  end.

Fixpoint string_map (f : Ascii.ascii -> Ascii.ascii) (s : string) : string :=
  match s with
  | EmptyString => EmptyString
  | String c s' => String (f c) (string_map f s')
  end.

Definition NilObjectID : string := "000000000000000000000000".

Definition ObjectIDFromHex (s : string) : string * option string :=
  if Nat.eqb (String.length s) 24 && string_forallb is_hex_digit s
  then (string_map lower_hex s, None)
  else (NilObjectID, Some "the provided hex string is not a valid ObjectID").

(** An id as [ObjectID.Hex()] prints it. *)
Definition valid_hex_id (s : string) : bool :=
  Nat.eqb (String.length s) 24 &&
  string_forallb (fun c => let n := Ascii.nat_of_ascii c in
                           (Nat.leb 48 n && Nat.leb n 57) ||
                           (Nat.leb 97 n && Nat.leb n 102)) s.

(** ** Sessions ([sessions] collection) *)

Inductive SessionStatus := StatusCompleted | StatusAbandoned.

Definition SessionStatus_eqb (a b : SessionStatus) : bool :=
  match a, b with
  | StatusCompleted, StatusCompleted | StatusAbandoned, StatusAbandoned => true
  | _, _ => false
  end.

(** [db.Session] without its [_id]; times are seconds since the epoch. *)
Record Session := {
  SessionSubjectID : string;
  SessionSubjectName : string;
  SessionDuration : Z;
  Status : SessionStatus;
  SessionStartedAt : Z;
  CompletedAt : Z
}.

(** [CreateSession]: [now] is [time.Now()], [insert_ok] whether
    [InsertOne] succeeded.  Returns the session written (or the error) and
    the collection afterwards. *)
Definition CreateSession (sessions : list Session) (now : Z) (insert_ok : bool)
  (subjectID subjectName : string) (duration : Z) (status : SessionStatus)
  (startedAt : Z) : GoResult Session * list Session :=
  let session := {| SessionSubjectID := subjectID;
                    SessionSubjectName := subjectName;
                    SessionDuration := duration; Status := status;
                    SessionStartedAt := startedAt; CompletedAt := now |} in
  if insert_ok then ((Some session, None), sessions ++ [session])
  else ((None, Some "insert failed"), sessions).

Record SessionStats := {
  TotalSessions : Z;
  CompletedSessions : Z;
  AbandonedSessions : Z;
  TotalMinutes : Z;
  CurrentStreak : Z;
  LongestStreak : Z
}.

Definition is_completed (s : Session) : bool :=
  SessionStatus_eqb (Status s) StatusCompleted.

(** [s.CompletedAt.Format("2006-01-02")] of a time decoded in UTC, then
    [time.Parse]: the UTC day number. *)
Definition day_of (t : Z) : Z := t / 86400.

(** The [$sum] of [duration] over the completed sessions: the [$group]
    stage yields no document when nothing matches. *)
Definition completed_minutes (sessions : list Session) : Z :=
  match filter is_completed sessions with
  | [] => 0
  | done => fold_right (fun s acc => SessionDuration s + acc) 0 done
  end.

(** [GetSessionStats] when every query succeeds: [loc] is the local zone,
    [now] is [time.Now()] and [keys] the iteration order of the day map of
    [calculateStreaks]. *)
Definition GetSessionStats (loc : Streaks.Zone) (now : Z) (keys : list Z)
  (sessions : list Session) : SessionStats :=
  let total := Z.of_nat (List.length sessions) in
  let completed := Z.of_nat (List.length (filter is_completed sessions)) in
  let (cur, lon) :=
    Streaks.calculateStreaks loc now
      (map (fun s => day_of (CompletedAt s)) (filter is_completed sessions))
      keys in
  {| TotalSessions := total; CompletedSessions := completed;
     AbandonedSessions := total - completed;
     TotalMinutes := completed_minutes sessions;
     CurrentStreak := cur; LongestStreak := lon |}.

(** ** Subjects, quotes and poems *)

(** [db.Subject] (its [CreatedAt] is not read anywhere). *)
Record Subject := {
  subject_ID : string;
  subject_Name : string;
  subject_Icon : string
}.

(** A quote document: [subjects] has [omitempty], so an empty tag list
    is stored as a missing field. *)
Record QuoteDoc := {
  qd_ID : string;
  qd_Text : string;
  qd_Source : string;
  qd_Subjects : list string
}.

Record PoemDoc := {
  pd_ID : string;
  pd_OldEnglish : string;
  pd_ModernEnglish : string;
  pd_Source : string;
  pd_LineRef : string
}.

(** The [$match] filter of [GetRandomQuoteForSubject]: every quote for
    [""]; otherwise the quotes whose [subjects] array contains the name,
    or whose [subjects] is missing, empty or null. *)
Definition quote_matches (subjectName : string) (q : QuoteDoc) : bool :=
  if String.eqb subjectName "" then true
  else existsb (String.eqb subjectName) (qd_Subjects q) ||
       match qd_Subjects q with [] => true | _ => false end.

Definition to_Quote (q : QuoteDoc) : Quote :=
  {| quote_Text := qd_Text q; quote_Source := qd_Source q |}.

(** [GetRandomQuoteForSubject]: [query_error] is the error of
    [Aggregate] or of [cursor.All], returned as [(nil, err)]; otherwise
    [$sample] with size 1 picks one matching document, here the one at
    position [pick] (modulo their number), and no match gives
    [(nil, nil)]. *)
Definition GetRandomQuoteForSubject (quotes : list QuoteDoc)
  (subjectName : string) (query_error : option string) (pick : nat)
  : GoResult Quote :=
  match query_error with
  | Some err => (None, Some err)
  | None =>
      match filter (quote_matches subjectName) quotes with
      | [] => (None, None)
      | cands => (Some (to_Quote (nth (Nat.modulo pick (List.length cands)) cands
                                     (List.hd (Build_QuoteDoc "" "" "" []) cands))),
                  None)
      end
  end.

(** The [...IfNotExists] functions: [FindOne(...).Decode] on the key
    ([find_error]: it fails with an error other than [ErrNoDocuments],
    which is returned before anything else), then [InsertOne]
    ([insert_ok]) of the new document.  They return the document, whether
    it was created, the error, and the collection afterwards. *)
Definition AddSubjectIfNotExists (subjects : list Subject) (find_error : bool)
  (insert_ok : bool) (newID name icon : string)
  : option Subject * bool * option string * list Subject :=
  if find_error then (None, false, Some "find failed", subjects)
  else
    match find (fun s => String.eqb (subject_Name s) name) subjects with
    | Some existing => (Some existing, false, None, subjects)
    | None =>
        let s := {| subject_ID := newID; subject_Name := name;
                    subject_Icon := icon |} in
        if insert_ok then (Some s, true, None, subjects ++ [s])
        else (None, false, Some "insert failed", subjects)
    end.

Definition AddQuoteIfNotExists (quotes : list QuoteDoc) (find_error : bool)
  (insert_ok : bool) (newID text source : string) (tags : list string)
  : option QuoteDoc * bool * option string * list QuoteDoc :=
  if find_error then (None, false, Some "find failed", quotes)
  else
    match find (fun q => String.eqb (qd_Text q) text) quotes with
    | Some existing => (Some existing, false, None, quotes)
    | None =>
        let q := {| qd_ID := newID; qd_Text := text; qd_Source := source;
                    qd_Subjects := tags |} in
        if insert_ok then (Some q, true, None, quotes ++ [q])
        else (None, false, Some "insert failed", quotes)
    end.

Definition AddPoemIfNotExists (poems : list PoemDoc) (find_error : bool)
  (insert_ok : bool) (newID oldEnglish modernEnglish source lineRef : string)
  : option PoemDoc * bool * option string * list PoemDoc :=
  if find_error then (None, false, Some "find failed", poems)
  else
    match find (fun p => String.eqb (pd_Source p) source &&
                       String.eqb (pd_LineRef p) lineRef) poems with
    | Some existing => (Some existing, false, None, poems)
    | None =>
        let p := {| pd_ID := newID; pd_OldEnglish := oldEnglish;
                    pd_ModernEnglish := modernEnglish; pd_Source := source;
                    pd_LineRef := lineRef |} in
        if insert_ok then (Some p, true, None, poems ++ [p])
        else (None, false, Some "insert failed", poems)
    end.

End Db.

(** * The application screens (ui package): menu, subject selection,
      quotes management and the [AppModel] router *)

(** The messages the application's models receive: the timer's messages
    (key presses among them), the navigation and result messages, and the
    database results that the closures of the commands below return. *)
Inductive AppMsg :=
| ABase (m : Msg)
| AStatsLoaded (stats : option Db.SessionStats) (err : option string)
| AMenuSelection (choice : Z)
| ASubjectSelected (s : Db.Subject)
| ABackToMenu
| ATimerComplete (o : TimerCompleteMsg)
| ASubjectsLoaded (subjects : list Db.Subject) (err : option string)
| ASubjectAdded (s : option Db.Subject) (err : option string)
| AQuotesLoaded (quotes : list Db.QuoteDoc) (err : option string)
| AQuoteAdded (q : option Db.QuoteDoc) (err : option string)
| AQuoteDeleted (err : option string).

(** The commands they return: [nil], [tea.Quit], the closures (named by
    the message they return or the database call they make), a command of
    the timer, and a command of a text input (cursor blinking). *)
Inductive AppCmd :=
| ACNone
| ACQuit
| ACMenuSelection (choice : Z)
| ACBackToMenu
| ACSubjectSelected (s : Db.Subject)
| ACLoadSubjects
| ACAddSubject (name icon : string)
| ACLoadQuotes
| ACAddQuote (text source : string)
| ACDeleteQuote (id : string)
| ACLoadStats (keep_error : bool)
| ACTimer (c : Cmd)
| ACBlink
| ACInput (n : nat).

(** ** The main menu ([MenuModel] in ui/timer.go) *)

Section Menu.

Local Open Scope string_scope.
Local Open Scope list_scope.
Local Open Scope Z_scope.

(** [MenuChoice] *)
Definition StartSession : Z := 0.
Definition ViewStats : Z := 1.
Definition ManageQuotes : Z := 2.
Definition ToggleDisplayMode : Z := 3.
Definition QuitApp : Z := 4.

Record menuItem := { icon : string; text : string }.

Record MenuModel := {
  choices : list menuItem;
  cursor : Z;
  streak : Z;
  menu_displayMode : DisplayMode
}.

Definition NewMenuModel : MenuModel :=
  {| choices := [ {| icon := "🎯"; text := "Start Focus Session" |};
                  {| icon := "📜"; text := "View Statistics" |};
                  {| icon := "💬"; text := "Manage Quotes" |};
                  {| icon := "📖"; text := "Display: Quotes" |};
                  {| icon := "🚪"; text := "Quit" |} ];
     cursor := 0; streak := 0; menu_displayMode := DisplayModeQuotes |}.

Definition GetDisplayMode (m : MenuModel) : DisplayMode := menu_displayMode m.

(** [s[i] = x] on a slice; [i] is in range wherever the code does it
    (the menu always has five items). *)
Fixpoint set_nth {A : Type} (i : nat) (x : A) (l : list A) : list A :=
  match i, l with
  | _, [] => []
  | O, _ :: l' => x :: l'
  | S i', y :: l' => y :: set_nth i' x l'
  end.

Definition updateDisplayModeText (m : MenuModel) : MenuModel :=
  let item := match menu_displayMode m with
              | DisplayModePoems =>
                  {| icon := "📖"; text := "Display: Old English Poems" |}
              | DisplayModeQuotes => {| icon := "💬"; text := "Display: Quotes" |}
              end in
  {| choices := set_nth 3 item (choices m); cursor := cursor m;
     streak := streak m; menu_displayMode := menu_displayMode m |}.

Definition SetStreak (m : MenuModel) (s : Z) : MenuModel :=
  {| choices := choices m; cursor := cursor m; streak := s;
     menu_displayMode := menu_displayMode m |}.

Definition set_cursor (m : MenuModel) (c : Z) : MenuModel :=
  {| choices := choices m; cursor := c; streak := streak m;
     menu_displayMode := menu_displayMode m |}.

Definition set_menu_mode (m : MenuModel) (d : DisplayMode) : MenuModel :=
  {| choices := choices m; cursor := cursor m; streak := streak m;
     menu_displayMode := d |}.

Definition key_in (k : string) (ks : list string) : bool :=
  existsb (String.eqb k) ks.

(** [func (m MenuModel) Update(msg tea.Msg)] *)
Definition MenuUpdate (m : MenuModel) (msg : AppMsg) : MenuModel * AppCmd :=
  match msg with
  | ABase (KeyMsg k) =>
      if key_in k ["up"; "k"] then
        (if 0 <? cursor m then set_cursor m (cursor m - 1) else m, ACNone)
      else if key_in k ["down"; "j"] then
        (if cursor m <? Z.of_nat (List.length (choices m)) - 1
         then set_cursor m (cursor m + 1) else m, ACNone)
      else if key_in k ["enter"; " "] then
        if cursor m =? ToggleDisplayMode then
          let m' := match menu_displayMode m with
                    | DisplayModeQuotes => set_menu_mode m DisplayModePoems
                    | DisplayModePoems => set_menu_mode m DisplayModeQuotes
                    end in
          (updateDisplayModeText m', ACNone)
        else (m, ACMenuSelection (cursor m))
      else if key_in k ["q"; "ctrl+c"] then (m, ACQuit)
      else (m, ACNone)
  | _ => (m, ACNone)
  end.

(** Menus reachable from [NewMenuModel] through [Update] and
    [SetStreak]. *)
Inductive MenuReachable : MenuModel -> Prop :=
| menu_new : MenuReachable NewMenuModel
| menu_update m msg : MenuReachable m -> MenuReachable (fst (MenuUpdate m msg))
| menu_streak m s : MenuReachable m -> MenuReachable (SetStreak m s).

End Menu.

Section Screens.

Local Open Scope string_scope.
Local Open Scope list_scope.
Local Open Scope Z_scope.

(** [textinput.Model] of the bubbles library, left abstract: its value,
    the methods the screens call, its [Update] on a key, its zero value
    and the inputs the constructors configure. *)
Context {TextInput : Type}.
Context (ti_Value : TextInput -> string).
Context (ti_Reset ti_Focus ti_Blur : TextInput -> TextInput).
Context (ti_Update : TextInput -> string -> TextInput * AppCmd).
Context (ti_Zero : TextInput).
Context (ti_SubjectName ti_SubjectIcon ti_QuoteText ti_QuoteSource : TextInput).

(** ** Subject selection ([SubjectSelectModel], ui/subject_select.go) *)

Record SubjectSelectModel := {
  subjects : list Db.Subject;
  ss_cursor : Z;
  ss_adding : bool;
  textInput : TextInput;
  iconInput : TextInput;
  ss_inputFocus : Z;
  ss_err : option string
}.

Definition NewSubjectSelectModel : SubjectSelectModel :=
  {| subjects := []; ss_cursor := 0; ss_adding := false;
     textInput := ti_SubjectName; iconInput := ti_SubjectIcon;
     ss_inputFocus := 0; ss_err := None |}.

Definition ss_set (m : SubjectSelectModel) (subs : list Db.Subject) (c : Z)
  (adding : bool) (ti ii : TextInput) (focus : Z) (err : option string)
  : SubjectSelectModel :=
  {| subjects := subs; ss_cursor := c; ss_adding := adding; textInput := ti;
     iconInput := ii; ss_inputFocus := focus; ss_err := err |}.

(** ["📚"], the icon of a subject added without one. *)
Definition default_icon : string := "📚".

Definition ss_handleAddingInput (m : SubjectSelectModel) (k : string)
  : SubjectSelectModel * AppCmd :=
  if String.eqb k "esc" then
    (ss_set m (subjects m) (ss_cursor m) false (ti_Reset (textInput m))
       (ti_Reset (iconInput m)) (ss_inputFocus m) (ss_err m), ACNone)
  else if String.eqb k "tab" then
    if ss_inputFocus m =? 0 then
      (ss_set m (subjects m) (ss_cursor m) (ss_adding m) (ti_Blur (textInput m))
         (ti_Focus (iconInput m)) 1 (ss_err m), ACNone)
    else
      (ss_set m (subjects m) (ss_cursor m) (ss_adding m) (ti_Focus (textInput m))
         (ti_Blur (iconInput m)) 0 (ss_err m), ACNone)
  else if String.eqb k "enter" then
    if ss_inputFocus m =? 0 then
      (ss_set m (subjects m) (ss_cursor m) (ss_adding m) (ti_Blur (textInput m))
         (ti_Focus (iconInput m)) 1 (ss_err m), ACNone)
    else
      let name := ti_Value (textInput m) in
      if String.eqb name "" then (m, ACNone)
      else
        let icon := if String.eqb (ti_Value (iconInput m)) ""
                    then default_icon else ti_Value (iconInput m) in
        (m, ACAddSubject name icon)
  else if ss_inputFocus m =? 0 then
    let (ti, c) := ti_Update (textInput m) k in
    (ss_set m (subjects m) (ss_cursor m) (ss_adding m) ti (iconInput m)
       (ss_inputFocus m) (ss_err m), c)
  else
    let (ii, c) := ti_Update (iconInput m) k in
    (ss_set m (subjects m) (ss_cursor m) (ss_adding m) (textInput m) ii
       (ss_inputFocus m) (ss_err m), c).

(** [m.subjects[m.cursor]] for [0 <= cursor < len]. *)
Definition subject_at (subs : list Db.Subject) (c : Z) : option Db.Subject :=
  nth_error subs (Z.to_nat c).

Definition SubjectSelectUpdate (m : SubjectSelectModel) (msg : AppMsg)
  : SubjectSelectModel * AppCmd :=
  match msg with
  | ASubjectsLoaded subs err =>
      match err with
      | Some e => (ss_set m (subjects m) (ss_cursor m) (ss_adding m)
                     (textInput m) (iconInput m) (ss_inputFocus m) (Some e),
                   ACNone)
      | None => (ss_set m subs (ss_cursor m) (ss_adding m) (textInput m)
                   (iconInput m) (ss_inputFocus m) (ss_err m), ACNone)
      end
  | ASubjectAdded s err =>
      match err, s with
      | Some e, _ => (ss_set m (subjects m) (ss_cursor m) (ss_adding m)
                        (textInput m) (iconInput m) (ss_inputFocus m) (Some e),
                      ACNone)
      | None, Some sub =>
          (ss_set m (subjects m ++ [sub]) (ss_cursor m) false
             (ti_Reset (textInput m)) (ti_Reset (iconInput m))
             (ss_inputFocus m) (ss_err m), ACNone)
      | None, None => (m, ACNone) (* [AddSubject] never returns nil, nil *)
      end
  | ABase (KeyMsg k) =>
      if ss_adding m then ss_handleAddingInput m k
      else if key_in k ["esc"; "q"] then (m, ACBackToMenu)
      else if key_in k ["up"; "k"] then
        (if 0 <? ss_cursor m
         then ss_set m (subjects m) (ss_cursor m - 1) (ss_adding m)
                (textInput m) (iconInput m) (ss_inputFocus m) (ss_err m)
         else m, ACNone)
      else if key_in k ["down"; "j"] then
        (if ss_cursor m <? Z.of_nat (List.length (subjects m)) - 1
         then ss_set m (subjects m) (ss_cursor m + 1) (ss_adding m)
                (textInput m) (iconInput m) (ss_inputFocus m) (ss_err m)
         else m, ACNone)
      else if key_in k ["enter"; " "] then
        if (0 <? Z.of_nat (List.length (subjects m))) &&
           (ss_cursor m <? Z.of_nat (List.length (subjects m))) then
          match subject_at (subjects m) (ss_cursor m) with
          | Some s => (m, ACSubjectSelected s)
          | None => (m, ACNone)  (* a negative cursor: not reachable *)
          end
        else (m, ACNone)
      else if String.eqb k "a" then
        (ss_set m (subjects m) (ss_cursor m) true (ti_Focus (textInput m))
           (iconInput m) 0 (ss_err m), ACBlink)
      else (m, ACNone)
  | _ => (m, ACNone)
  end.

(** ** Quotes management ([QuotesModel], ui/quotes.go) *)

Record QuotesModel := {
  quotes : list Db.QuoteDoc;
  q_cursor : Z;
  q_adding : bool;
  q_textInput : TextInput;
  sourceInput : TextInput;
  q_inputFocus : Z;
  q_err : option string
}.

Definition NewQuotesModel : QuotesModel :=
  {| quotes := []; q_cursor := 0; q_adding := false;
     q_textInput := ti_QuoteText; sourceInput := ti_QuoteSource;
     q_inputFocus := 0; q_err := None |}.

Definition q_set (m : QuotesModel) (qs : list Db.QuoteDoc) (c : Z)
  (adding : bool) (ti si : TextInput) (focus : Z) (err : option string)
  : QuotesModel :=
  {| quotes := qs; q_cursor := c; q_adding := adding; q_textInput := ti;
     sourceInput := si; q_inputFocus := focus; q_err := err |}.

Definition deleteCurrentQuote (m : QuotesModel) : AppCmd :=
  if Z.of_nat (List.length (quotes m)) <=? q_cursor m then ACNone
  else match nth_error (quotes m) (Z.to_nat (q_cursor m)) with
       | Some q => ACDeleteQuote (Db.qd_ID q)
       | None => ACNone
       end.

Definition q_handleAddingInput (m : QuotesModel) (k : string)
  : QuotesModel * AppCmd :=
  if String.eqb k "esc" then
    (q_set m (quotes m) (q_cursor m) false (ti_Reset (q_textInput m))
       (ti_Reset (sourceInput m)) (q_inputFocus m) (q_err m), ACNone)
  else if String.eqb k "tab" then
    if q_inputFocus m =? 0 then
      (q_set m (quotes m) (q_cursor m) (q_adding m) (ti_Blur (q_textInput m))
         (ti_Focus (sourceInput m)) 1 (q_err m), ACNone)
    else
      (q_set m (quotes m) (q_cursor m) (q_adding m) (ti_Focus (q_textInput m))
         (ti_Blur (sourceInput m)) 0 (q_err m), ACNone)
  else if String.eqb k "enter" then
    if q_inputFocus m =? 0 then
      (q_set m (quotes m) (q_cursor m) (q_adding m) (ti_Blur (q_textInput m))
         (ti_Focus (sourceInput m)) 1 (q_err m), ACNone)
    else
      let txt := ti_Value (q_textInput m) in
      if String.eqb txt "" then (m, ACNone)
      else (m, ACAddQuote txt (ti_Value (sourceInput m)))
  else if q_inputFocus m =? 0 then
    let (ti, c) := ti_Update (q_textInput m) k in
    (q_set m (quotes m) (q_cursor m) (q_adding m) ti (sourceInput m)
       (q_inputFocus m) (q_err m), c)
  else
    let (si, c) := ti_Update (sourceInput m) k in
    (q_set m (quotes m) (q_cursor m) (q_adding m) (q_textInput m) si
       (q_inputFocus m) (q_err m), c).

Definition QuotesUpdate (m : QuotesModel) (msg : AppMsg) : QuotesModel * AppCmd :=
  match msg with
  | AQuotesLoaded qs err =>
      match err with
      | Some e => (q_set m (quotes m) (q_cursor m) (q_adding m) (q_textInput m)
                     (sourceInput m) (q_inputFocus m) (Some e), ACNone)
      | None => (q_set m qs (q_cursor m) (q_adding m) (q_textInput m)
                   (sourceInput m) (q_inputFocus m) (q_err m), ACNone)
      end
  | AQuoteAdded q err =>
      match err, q with
      | Some e, _ => (q_set m (quotes m) (q_cursor m) (q_adding m)
                        (q_textInput m) (sourceInput m) (q_inputFocus m)
                        (Some e), ACNone)
      | None, Some qd =>
          (q_set m (quotes m ++ [qd]) (q_cursor m) false
             (ti_Reset (q_textInput m)) (ti_Reset (sourceInput m))
             (q_inputFocus m) (q_err m), ACNone)
      | None, None => (m, ACNone) (* [AddQuote] never returns nil, nil *)
      end
  | AQuoteDeleted err =>
      match err with
      | Some e => (q_set m (quotes m) (q_cursor m) (q_adding m) (q_textInput m)
                     (sourceInput m) (q_inputFocus m) (Some e), ACLoadQuotes)
      | None => (m, ACLoadQuotes)
      end
  | ABase (KeyMsg k) =>
      if q_adding m then q_handleAddingInput m k
      else if key_in k ["esc"; "q"] then (m, ACBackToMenu)
      else if key_in k ["up"; "k"] then
        (if 0 <? q_cursor m
         then q_set m (quotes m) (q_cursor m - 1) (q_adding m) (q_textInput m)
                (sourceInput m) (q_inputFocus m) (q_err m)
         else m, ACNone)
      else if key_in k ["down"; "j"] then
        (if q_cursor m <? Z.of_nat (List.length (quotes m)) - 1
         then q_set m (quotes m) (q_cursor m + 1) (q_adding m) (q_textInput m)
                (sourceInput m) (q_inputFocus m) (q_err m)
         else m, ACNone)
      else if String.eqb k "a" then
        (q_set m (quotes m) (q_cursor m) true (ti_Focus (q_textInput m))
           (sourceInput m) 0 (q_err m), ACBlink)
      else if key_in k ["d"; "delete"] then
        if 0 <? Z.of_nat (List.length (quotes m))
        then (m, deleteCurrentQuote m) else (m, ACNone)
      else (m, ACNone)
  | _ => (m, ACNone)
  end.

End Screens.

(** ** The router ([AppModel], ui/subject_select.go) *)

(** [View] *)
Inductive View :=
| MenuViewState
| SubjectSelectViewState
| TimerViewState
| StatsViewState
| QuotesViewState.

Section App.

Local Open Scope string_scope.
Local Open Scope list_scope.
Local Open Scope Z_scope.

Context {Progress TextInput : Type}.
Context (progress_New progress_Zero : Progress).
Context (progress_Update : Progress -> Progress * bool).
Context (ti_Value : TextInput -> string).
Context (ti_Reset ti_Focus ti_Blur : TextInput -> TextInput).
Context (ti_Update : TextInput -> string -> TextInput * AppCmd).
Context (ti_Zero : TextInput).
Context (ti_SubjectName ti_SubjectIcon ti_QuoteText ti_QuoteSource : TextInput).

(** Go's zero [time.Time] (January 1 of year 1, UTC) in seconds since the
    epoch. *)
Definition zero_time : Z := -62135596800.

(** The zero [TimerModel] that [NewAppModel] leaves in [timer]. *)
Definition zero_timer : @TimerModel Progress :=
  {| totalSeconds := 0; remainingSeconds := 0; running := false;
     progress := progress_Zero; confirming := false; currentQuote := "";
     currentSource := ""; currentOldEnglish := ""; currentModernEnglish := "";
     currentPoemSource := ""; currentPoemLineRef := "";
     displayMode := DisplayModeQuotes; subjectID := ""; subjectName := "";
     startedAt := zero_time |}.

Record AppModel := {
  currentView : View;
  menu : MenuModel;
  subjectSelect : @SubjectSelectModel TextInput;
  timer : @TimerModel Progress;
  quotesScreen : @QuotesModel TextInput;
  stats : option Db.SessionStats;
  statsErr : option string
}.

Definition NewAppModel : AppModel :=
  {| currentView := MenuViewState; menu := NewMenuModel;
     subjectSelect := {| subjects := []; ss_cursor := 0; ss_adding := false;
                         textInput := ti_Zero; iconInput := ti_Zero;
                         ss_inputFocus := 0; ss_err := None |};
     timer := zero_timer;
     quotesScreen := {| quotes := []; q_cursor := 0; q_adding := false;
                        q_textInput := ti_Zero; sourceInput := ti_Zero;
                        q_inputFocus := 0; q_err := None |};
     stats := None; statsErr := None |}.

(** [func (m AppModel) Init() tea.Cmd]: the stats are loaded and their
    error dropped. *)
Definition AppInit (m : AppModel) : AppCmd := ACLoadStats false.

Definition app_set (m : AppModel) (v : View) (mn : MenuModel)
  (ss : @SubjectSelectModel TextInput) (t : @TimerModel Progress)
  (q : @QuotesModel TextInput) (st : option Db.SessionStats)
  (se : option string) : AppModel :=
  {| currentView := v; menu := mn; subjectSelect := ss; timer := t;
     quotesScreen := q; stats := st; statsErr := se |}.

Definition set_view (m : AppModel) (v : View) : AppModel :=
  app_set m v (menu m) (subjectSelect m) (timer m) (quotesScreen m) (stats m)
    (statsErr m).

(** [func (m AppModel) Update(msg tea.Msg)].  The environment of one call:
    [db] is what the content lookups of [NewTimerModelWithMode] and of the
    timer answer, [now] is [time.Now()], [insert_ok] whether the
    [InsertOne] of [db.CreateSession] succeeds, and [sessions] is the
    sessions collection, returned updated. *)
Definition AppUpdate (db : DbAnswer) (now : Z) (insert_ok : bool)
  (sessions : list Db.Session) (m : AppModel) (msg : AppMsg)
  : AppModel * AppCmd * list Db.Session :=
  match msg with
  | AStatsLoaded st err =>
      let mn := match st with
                | Some s => SetStreak (menu m) (Db.CurrentStreak s)
                | None => menu m
                end in
      (app_set m (currentView m) mn (subjectSelect m) (timer m)
         (quotesScreen m) st err, ACNone, sessions)
  | AMenuSelection c =>
      if c =? StartSession then
        (app_set m SubjectSelectViewState (menu m)
           (NewSubjectSelectModel ti_SubjectName ti_SubjectIcon)
           (timer m) (quotesScreen m) (stats m) (statsErr m),
         ACLoadSubjects, sessions)
      else if c =? ViewStats then
        (set_view m StatsViewState, ACLoadStats true, sessions)
      else if c =? ManageQuotes then
        (app_set m QuotesViewState (menu m) (subjectSelect m) (timer m)
           (NewQuotesModel ti_QuoteText ti_QuoteSource) (stats m) (statsErr m),
         ACLoadQuotes, sessions)
      else if c =? QuitApp then (m, ACQuit, sessions)
      else (m, ACNone, sessions)
  | ASubjectSelected s =>
      let t := NewTimerModelWithMode progress_New db now 25 (Db.subject_ID s)
                 (Db.subject_Name s) (GetDisplayMode (menu m)) in
      (app_set m TimerViewState (menu m) (subjectSelect m) t (quotesScreen m)
         (stats m) (statsErr m), ACTimer (Init t), sessions)
  | ABackToMenu => (set_view m MenuViewState, ACNone, sessions)
  | ATimerComplete o =>
      let status := if Completed o then Db.StatusCompleted
                    else Db.StatusAbandoned in
      let subjectID := fst (Db.ObjectIDFromHex (SubjectID o)) in
      let sessions' := snd (Db.CreateSession sessions now insert_ok subjectID
                              (SubjectName o) (Duration o) status
                              (StartedAt o)) in
      (set_view m MenuViewState, ACLoadStats false, sessions')
  | _ =>
      match currentView m with
      | MenuViewState =>
          let (mn, c) := MenuUpdate (menu m) msg in
          (app_set m (currentView m) mn (subjectSelect m) (timer m)
             (quotesScreen m) (stats m) (statsErr m), c, sessions)
      | SubjectSelectViewState =>
          let (ss, c) := SubjectSelectUpdate ti_Value ti_Reset ti_Focus ti_Blur
                           ti_Update (subjectSelect m) msg in
          (app_set m (currentView m) (menu m) ss (timer m) (quotesScreen m)
             (stats m) (statsErr m), c, sessions)
      | TimerViewState =>
          let tmsg := match msg with ABase b => b | _ => OtherMsg end in
          let (t, c) := Update progress_Update db (timer m) tmsg in
          (app_set m (currentView m) (menu m) (subjectSelect m) t
             (quotesScreen m) (stats m) (statsErr m), ACTimer c, sessions)
      | StatsViewState =>
          match msg with
          | ABase (KeyMsg k) =>
              if String.eqb k "esc" || String.eqb k "q"
              then (set_view m MenuViewState, ACNone, sessions)
              else (m, ACNone, sessions)
          | _ => (m, ACNone, sessions)
          end
      | QuotesViewState =>
          let (q, c) := QuotesUpdate ti_Value ti_Reset ti_Focus ti_Blur
                          ti_Update (quotesScreen m) msg in
          (app_set m (currentView m) (menu m) (subjectSelect m) (timer m) q
             (stats m) (statsErr m), c, sessions)
      end
  end.

End App.

(** ** The Bubble Tea runtime around the application

    The runtime keeps the application model, the jobs its commands have
    started and whose message has not been delivered yet (a closure, a
    [tea.Tick] of the timer, a cursor blink), the sessions collection, and
    whether [tea.Quit] has run.  Messages go to [AppModel.Update] in the
    order the jobs finish, which the model leaves open.  [ar_rotations] is
    a ghost counter of the calls in which the timer took its
    [loadRandomContent] branch. *)
Section AppRuntime.

Local Open Scope string_scope.
Local Open Scope list_scope.
Local Open Scope Z_scope.

Context {Progress TextInput : Type}.
Context (progress_New progress_Zero : Progress).
Context (progress_Update : Progress -> Progress * bool).
Context (ti_Value : TextInput -> string).
Context (ti_Reset ti_Focus ti_Blur : TextInput -> TextInput).
Context (ti_Update : TextInput -> string -> TextInput * AppCmd).
Context (ti_Zero : TextInput).
Context (ti_SubjectName ti_SubjectIcon ti_QuoteText ti_QuoteSource : TextInput).

(** What the database calls of the closures return when they run. *)
Record StoreAnswer := {
  ans_subjects : list Db.Subject * option string;
  ans_stats : option Db.SessionStats * option string;
  ans_quotes : list Db.QuoteDoc * option string;
  ans_subject_added : option Db.Subject * option string;
  ans_quote_added : option Db.QuoteDoc * option string;
  ans_quote_deleted : option string
}.

(** The environment of one step: the content lookups, [time.Now()],
    whether [db.CreateSession] can insert, and the database answers. *)
Record AppEnv := {
  env_db : DbAnswer;
  env_now : Z;
  env_insert_ok : bool;
  env_store : StoreAnswer
}.

Record AppRuntime := {
  ar_app : @AppModel Progress TextInput;
  ar_pending : list AppCmd;
  ar_sessions : list Db.Session;
  ar_quit : bool;
  ar_rotations : nat
}.

(** The jobs a timer command starts: [tea.Batch] starts each of its
    commands, [nil] none. *)
Fixpoint timer_jobs (c : Cmd) : list AppCmd :=
  match c with
  | CmdNone => []
  | CmdBatch cs =>
      (fix go (cs : list Cmd) : list AppCmd :=
         match cs with
         | [] => []
         | c :: cs' => timer_jobs c ++ go cs'
         end) cs
  | _ => [ACTimer c]
  end.

Definition app_jobs (c : AppCmd) : list AppCmd :=
  match c with
  | ACNone => []
  | ACTimer tc => timer_jobs tc
  | _ => [c]
  end.

(** The message a finished job hands to [Update], and whether it is
    [tea.Quit]. *)
Definition job_result (ans : StoreAnswer) (j : AppCmd) : option AppMsg * bool :=
  match j with
  | ACNone => (None, false)
  | ACQuit => (None, true)
  | ACMenuSelection c => (Some (AMenuSelection c), false)
  | ACBackToMenu => (Some ABackToMenu, false)
  | ACSubjectSelected sub => (Some (ASubjectSelected sub), false)
  | ACLoadSubjects =>
      (Some (ASubjectsLoaded (fst (ans_subjects ans)) (snd (ans_subjects ans))),
       false)
  | ACAddSubject _ _ =>
      (Some (ASubjectAdded (fst (ans_subject_added ans))
               (snd (ans_subject_added ans))), false)
  | ACLoadQuotes =>
      (Some (AQuotesLoaded (fst (ans_quotes ans)) (snd (ans_quotes ans))), false)
  | ACAddQuote _ _ =>
      (Some (AQuoteAdded (fst (ans_quote_added ans)) (snd (ans_quote_added ans))),
       false)
  | ACDeleteQuote _ => (Some (AQuoteDeleted (ans_quote_deleted ans)), false)
  | ACLoadStats keep_error =>
      (Some (AStatsLoaded (fst (ans_stats ans))
               (if keep_error then snd (ans_stats ans) else None)), false)
  | ACTimer tc =>
      match tc with
      | CmdTick => (Some (ABase TickMsg), false)
      | CmdQuoteTick => (Some (ABase QuoteTickMsg), false)
      | CmdFrame => (Some (ABase FrameMsg), false)
      | CmdEmit o => (Some (ATimerComplete o), false)
      | CmdQuit => (None, true)
      | CmdNone | CmdBatch _ => (None, false)
      end
  | ACBlink | ACInput _ => (Some (ABase OtherMsg), false)
  end.

Definition is_timer_view (v : View) : bool :=
  match v with TimerViewState => true | _ => false end.

Definition ar_deliver (env : AppEnv) (s : AppRuntime) (msg : AppMsg)
  (rest : list AppCmd) : AppRuntime :=
  let '(m', c, sessions') :=
    AppUpdate progress_New progress_Update ti_Value ti_Reset ti_Focus ti_Blur
      ti_Update ti_SubjectName ti_SubjectIcon ti_QuoteText ti_QuoteSource
      (env_db env) (env_now env) (env_insert_ok env) (ar_sessions s)
      (ar_app s) msg in
  {| ar_app := m'; ar_pending := rest ++ app_jobs c;
     ar_sessions := sessions'; ar_quit := ar_quit s;
     ar_rotations :=
       if is_timer_view (currentView (ar_app s))
          && is_QuoteTickMsg (match msg with ABase b => b | _ => OtherMsg end)
          && running (timer (ar_app s))
       then S (ar_rotations s) else ar_rotations s |}.

(** What can happen next: a key press, the [i]-th pending job finishes,
    or another message.  Nothing happens once [tea.Quit] has run. *)
Inductive AppEvent :=
| AEvKey (k : string)
| AEvFire (i : nat)
| AEvOther.

Fixpoint remove_job (i : nat) (l : list AppCmd) : list AppCmd :=
  match i, l with
  | _, [] => []
  | O, _ :: l' => l'
  | S i', x :: l' => x :: remove_job i' l'
  end.

Definition ar_step (env : AppEnv) (s : AppRuntime) (e : AppEvent) : AppRuntime :=
  if ar_quit s then s
  else
    match e with
    | AEvKey k => ar_deliver env s (ABase (KeyMsg k)) (ar_pending s)
    | AEvOther => ar_deliver env s (ABase OtherMsg) (ar_pending s)
    | AEvFire i =>
        match nth_error (ar_pending s) i with
        | None => s
        | Some j =>
            let rest := remove_job i (ar_pending s) in
            match job_result (env_store env) j with
            | (Some msg, _) => ar_deliver env s msg rest
            | (None, quits) =>
                {| ar_app := ar_app s; ar_pending := rest;
                   ar_sessions := ar_sessions s; ar_quit := quits;
                   ar_rotations := ar_rotations s |}
            end
        end
    end.

Fixpoint ar_run (tr : list (AppEnv * AppEvent)) (s : AppRuntime) : AppRuntime :=
  match tr with
  | [] => s
  | (env, e) :: tr' => ar_run tr' (ar_step env s e)
  end.

(** The program starts with [NewAppModel] and runs its [Init] command. *)
Definition app_start (sessions : list Db.Session) : AppRuntime :=
  let m := NewAppModel progress_Zero ti_Zero in
  {| ar_app := m; ar_pending := app_jobs (AppInit m); ar_sessions := sessions;
     ar_quit := false; ar_rotations := 0 |}.

End AppRuntime.

(** ** The countdown of [main.go] ([model.Init], [model.Update]) *)
Module MainLoop.

Local Open Scope string_scope.
Local Open Scope list_scope.
Local Open Scope Z_scope.

Import Main.

Definition set_model (m : model) (total remaining : Z) (run : bool) : model :=
  {| m_totalSeconds := total; m_remainingSeconds := remaining;
     m_running := run |}.

(** [func (m model) Init() tea.Cmd]: the receiver is a copy, so
    [m.running = true] is lost; [tea.ClearScreen] returns no message to
    the model. *)
Definition model_Init (m : model) : Cmd := CmdBatch [CmdNone; CmdTick].

(** [func (m model) Update(msg tea.Msg)].  The progress bar is not part
    of [model] here: on a [FrameMsg] the countdown is left as it is and
    the command is the one the bar returns, [frame_cmd]. *)
Definition model_Update (frame_cmd : Cmd) (m : model) (msg : Msg)
  : model * Cmd :=
  match msg with
  | KeyMsg k =>
      if String.eqb k "q" || String.eqb k "ctrl+c" then (m, CmdQuit)
      else if String.eqb k " " then
        let m' := set_model m (m_totalSeconds m) (m_remainingSeconds m)
                    (negb (m_running m)) in
        if m_running m' then (m', CmdTick) else (m', CmdNone)
      else if String.eqb k "r" then
        (set_model m (m_totalSeconds m) (m_totalSeconds m) true, CmdTick)
      else (m, CmdNone)
  | TickMsg =>
      if m_running m && (0 <? m_remainingSeconds m) then
        let m' := set_model m (m_totalSeconds m)
                    (Int64.sub (m_remainingSeconds m) 1) (m_running m) in
        if m_remainingSeconds m' <=? 0 then
          (set_model m' (m_totalSeconds m') (m_remainingSeconds m') false,
           CmdNone)
        else (m', CmdTick)
      else (m, CmdNone)
  | FrameMsg => (m, frame_cmd)
  | _ => (m, CmdNone)
  end.

End MainLoop.

(** ** The time shown by [renderTimer] ([fmt.Sprintf("%02d:%02d", ...)]) *)
Module TimerView.

Local Open Scope string_scope.
Local Open Scope list_scope.
Local Open Scope Z_scope.

Definition digit (d : Z) : Ascii.ascii := Ascii.ascii_of_nat (48 + Z.to_nat d).

(** The decimal digits of [n >= 0]; [fuel] bounds their number. *)
Fixpoint decimal (fuel : nat) (n : Z) (acc : string) : string :=
  match fuel with
  | O => acc
  | S f =>
      let acc' := String (digit (n mod 10)) acc in
      if n <? 10 then acc' else decimal f (n / 10) acc'
  end.

(** [strconv.Itoa]. *)
Definition itoa (n : Z) : string :=
  if n <? 0 then String "-"%char (decimal 20 (- n) "")
  else decimal 20 n "".

(** [%02d]: at least two characters, zero padded after the sign. *)
Definition fmt02d (n : Z) : string :=
  if (0 <=? n) && (n <? 10) then String "0"%char (itoa n)
  else if (-10 <? n) && (n <? 0) then String "-"%char (itoa (- n))
  else itoa n.

(** [minutes := m.remainingSeconds / 60; seconds := m.remainingSeconds % 60]
    with Go's truncating division. *)
Definition timeDisplay (remaining : Z) : string :=
  (fmt02d (Z.quot remaining 60) ++ ":" ++ fmt02d (Z.rem remaining 60))%string.

(** Which screen [TimerModel.View] renders. *)
Inductive Screen := ConfirmationScreen | CompleteScreen | TimerScreen.

Definition view_screen {P : Type} (m : @TimerModel P) : Screen :=
  if confirming m then ConfirmationScreen
  else if remainingSeconds m <=? 0 then CompleteScreen
  else TimerScreen.

(** Reading an ["MM:SS"] display back (a helper of the proofs, not of
    the program). *)
Definition digit_val (c : Ascii.ascii) : option Z :=
  let n := Ascii.nat_of_ascii c in
  if Nat.leb 48 n && Nat.leb n 57 then Some (Z.of_nat n - 48) else None.

Definition read_mmss (s : string) : option Z :=
  match s with
  | String a (String b (String c (String d (String e EmptyString)))) =>
      match digit_val a, digit_val b, digit_val d, digit_val e with
      | Some a', Some b', Some d', Some e' =>
          if Ascii.eqb c ":"%char then Some (60 * (10 * a' + b') + 10 * d' + e')
          else None
      | _, _, _, _ => None
      end
  | _ => None
  end.

End TimerView.

(** ** [truncate] of the seeding programs *)
Module Seed.

Local Open Scope string_scope.
Local Open Scope list_scope.
Local Open Scope Z_scope.

(** [func truncate(s string, max int) string]: [len] and slicing count
    bytes, as [String.length] and [substring] do.  Slicing with a negative
    [max] panics ([None]). *)
Definition truncate (s : string) (max : Z) : option string :=
  if Z.of_nat (String.length s) <=? max then Some s
  else if max <? 0 then None
  else Some (substring 0 (Z.to_nat max) s ++ "...")%string.

End Seed.

(** ** Measures used by the proofs *)
Section ProofMeasures.

Local Open Scope string_scope.
Local Open Scope Z_scope.

Context {Progress : Type}.

(** The fields an outcome is built from. *)
Definition session_fields (m : @TimerModel Progress) : string * string * Z * Z :=
  (subjectID m, subjectName m, totalSeconds m, startedAt m).

(** The invariant of a session: the timer keeps the fields [f] its
    outcomes are built from, and every outcome so far reports them. *)
Definition session_inv (f : string * string * Z * Z) (minutes : Z)
  (s : Runtime) : Prop :=
  session_fields (rt_timer s) = f /\
  Z.quot (let '(_, _, t, _) := f in t) 60 = minutes /\
  Forall (fun o => (SubjectID o, SubjectName o, Duration o, StartedAt o)
                   = (let '(sid, sname, _, now) := f in
                      (sid, sname, minutes, now)))
    (rt_outcomes s).

End ProofMeasures.

(** The label [updateDisplayModeText] gives item 3 in each mode. *)
Definition mode_label (d : DisplayMode) : string :=
  match d with
  | DisplayModePoems => "Display: Old English Poems"
  | DisplayModeQuotes => "Display: Quotes"
  end.

(** The completion days [calculateStreaks] reads: one per completed
    session. *)
Definition completed_days (sessions : list Db.Session) : list Z :=
  map (fun s => Db.day_of (Db.CompletedAt s)) (filter Db.is_completed sessions).

(** The digits [ObjectID.Hex()] prints. *)
Definition is_lower_hex_digit (c : Ascii.ascii) : bool :=
  let n := Ascii.nat_of_ascii c in
  (Nat.leb 48 n && Nat.leb n 57) || (Nat.leb 97 n && Nat.leb n 102).

(** ** Concrete instances used to evaluate the model *)

(** A progress bar that never animates. *)
Definition still_progress_Update (p : unit) : unit * bool := (p, false).

(** The collaborator finds no content. *)
Definition db_empty : DbAnswer :=
  {| quote_answer := (None, None); poem_answer := (None, None) |}.

(** A one-minute session on "GoLang", in quotes mode. *)
Definition demo_timer : @TimerModel unit :=
  NewTimerModelWithMode tt db_empty 0 1 "s1" "GoLang" DisplayModeQuotes.

Definition tick_n (n : nat) (m : @TimerModel unit) : @TimerModel unit :=
  Nat.iter n (fun m => fst (Update still_progress_Update db_empty m TickMsg)) m.

Section DemoData.

Local Open Scope string_scope.
Local Open Scope list_scope.
Local Open Scope Z_scope.

(** A text field holding its value as a string, typed keys appended. *)
Definition plain_ti_Update (t k : string) : string * AppCmd :=
  (String.append t k, ACNone).

Local Open Scope list_scope.
Local Open Scope Z_scope.

(** A 25-minute session on "GoLang" on a given day. *)
Definition demo_session (status : Db.SessionStatus) (day : Z) : Db.Session :=
  {| Db.SessionSubjectID := "65a1b2c3d4e5f60718293a4b";
     Db.SessionSubjectName := "GoLang"; Db.SessionDuration := 25;
     Db.Status := status; Db.SessionStartedAt := day * 86400;
     Db.CompletedAt := day * 86400 + 1500 |}.

(** A tagged quote and an untagged one. *)
Definition demo_quotes : list Db.QuoteDoc :=
  [{| Db.qd_ID := "q1"; Db.qd_Text := "Wyrd bið ful aræd."; Db.qd_Source := "The Wanderer";
      Db.qd_Subjects := ["Old English"] |};
   {| Db.qd_ID := "q2"; Db.qd_Text := "Simplicity is prerequisite for reliability.";
      Db.qd_Source := "Dijkstra"; Db.qd_Subjects := [] |}].

(** Two subjects. *)
Definition demo_subjects : list Db.Subject :=
  [{| Db.subject_ID := "s1"; Db.subject_Name := "GoLang"; Db.subject_Icon := "💻" |};
   {| Db.subject_ID := "s2"; Db.subject_Name := "Old English"; Db.subject_Icon := "📜" |}].

(** The subject list with the cursor on the second subject. *)
Definition demo_subject_screen : @SubjectSelectModel string :=
  {| subjects := demo_subjects; ss_cursor := 1; ss_adding := false;
     textInput := ""; iconInput := ""; ss_inputFocus := 0; ss_err := None |}.

(** The quotes list with the cursor on the first quote. *)
Definition demo_quotes_screen : @QuotesModel string :=
  {| quotes := demo_quotes; q_cursor := 0; q_adding := false;
     q_textInput := ""; sourceInput := ""; q_inputFocus := 0; q_err := None |}.

(** A subject with a well-formed id. *)
Definition demo_subject : Db.Subject :=
  {| Db.subject_ID := "65a1b2c3d4e5f60718293a4b"; Db.subject_Name := "GoLang";
     Db.subject_Icon := "💻" |}.

(** The outcome of a 25-minute session on it, abandoned at once. *)
Definition demo_outcome : TimerCompleteMsg :=
  hd (Build_TimerCompleteMsg true "" "" 0 0)
    (rt_outcomes (run still_progress_Update
       [(db_empty, EvKey "q"); (db_empty, EvKey "y")]
       (start_session tt db_empty 7 25 (Db.subject_ID demo_subject)
          (Db.subject_Name demo_subject) DisplayModeQuotes))).


(** A database holding [demo_subject] and no session, every call
    succeeding. *)
Definition demo_store : StoreAnswer :=
  {| ans_subjects := ([demo_subject], None); ans_stats := (None, None);
     ans_quotes := ([], None); ans_subject_added := (None, None);
     ans_quote_added := (None, None); ans_quote_deleted := None |}.

Definition demo_env (now : Z) : AppEnv :=
  {| env_db := db_empty; env_now := now; env_insert_ok := true;
     env_store := demo_store |}.

(** The application with a still progress bar and plain text fields. *)
Definition demo_app_step : AppEnv -> @AppRuntime unit string -> AppEvent ->
  @AppRuntime unit string :=
  ar_step tt still_progress_Update (fun t => t) (fun _ => "") (fun t => t)
    (fun t => t) plain_ti_Update "" "" "" "".

Definition demo_app_run : list (AppEnv * AppEvent) -> @AppRuntime unit string ->
  @AppRuntime unit string :=
  ar_run tt still_progress_Update (fun t => t) (fun _ => "") (fun t => t)
    (fun t => t) plain_ti_Update "" "" "" "".

Definition demo_app_start : @AppRuntime unit string := app_start tt "" [].

(** From the menu: "enter" on "Start Session", the selection job, the
    subject list job, "enter" on the subject, the selection job; the
    session of 25 minutes starts at [now] with a one-second and a rotation
    wake-up pending.  [i] jobs are pending before. *)
Definition start_session_keys (now : Z) (i : nat) : list (AppEnv * AppEvent) :=
  [(demo_env now, AEvKey "enter"); (demo_env now, AEvFire i);
   (demo_env now, AEvFire i); (demo_env now, AEvKey "enter");
   (demo_env now, AEvFire i)].

(** Session 1 starts at 100 and is abandoned at 110 ("q", "y", then the
    outcome job); back in the menu, session 2 starts at 200 while session
    1's wake-ups (and the stats job of each outcome) are still in flight.
    Session 1's rotation wake-up fires in session 2 (a rotation, and a
    second rotation wake-up), then "space" pauses session 2. *)
Definition restart_trace : list (AppEnv * AppEvent) :=
  start_session_keys 100 1 ++
  [(demo_env 110, AEvKey "q"); (demo_env 110, AEvKey "y");
   (demo_env 110, AEvFire 3)] ++
  start_session_keys 200 4 ++
  [(demo_env 201, AEvFire 2); (demo_env 202, AEvKey " ")].

End DemoData.

(** ** Proofs about the timer *)
Section TimerProofs.

Context {Progress : Type}.
Context (progress_New : Progress).
Context (progress_Update : Progress -> Progress * bool).

Abbreviation TimerModel := (@TimerModel Progress).
Abbreviation Update := (Update progress_Update).
Abbreviation NewTimerModelWithMode := (NewTimerModelWithMode progress_New).
Abbreviation Reachable := (Reachable progress_New progress_Update).
Abbreviation countdown := (@countdown Progress).
Abbreviation run := (run progress_Update).
Abbreviation start_session := (start_session progress_New).
Abbreviation start_session_after := (start_session_after progress_New).

Lemma wrap_small (z : Z) :
  Int64.min_int <= z <= Int64.max_int -> Int64.wrap z = z.
Proof.
  intros H. unfold Int64.wrap, Int64.modulus, Int64.max_int, Int64.min_int in *.
  destruct (Z_lt_le_dec z 0) as [Hneg | Hpos].
  - assert (Hm : z mod 2 ^ 64 = z + 2 ^ 64)
      by (symmetry; apply Z.mod_unique with (-1); lia).
    rewrite Hm. destruct (Z.leb_spec (z + 2 ^ 64) (2 ^ 63 - 1)); lia.
  - rewrite Z.mod_small by lia.
    destruct (Z.leb_spec z (2 ^ 63 - 1)); lia.
Qed.

Ltac split_ifs :=
  repeat match goal with
  | |- context [if ?b then _ else _] =>
      let E := fresh "E" in destruct b eqn:E
  end.

Lemma loadRandomQuote_countdown (ans : GoResult Quote) (m : TimerModel) :
  countdown (loadRandomQuote ans m) = countdown m.
Proof. destruct ans as [[q|] [e|]]; reflexivity. Qed.

Lemma loadRandomPoem_countdown (ans : GoResult Poem) (m : TimerModel) :
  countdown (loadRandomPoem ans m) = countdown m.
Proof. destruct ans as [[p|] [e|]]; reflexivity. Qed.

Lemma loadRandomContent_countdown (db : DbAnswer) (m : TimerModel) :
  countdown (loadRandomContent db m) = countdown m.
Proof.
  unfold loadRandomContent. destruct (displayMode m).
  - apply loadRandomQuote_countdown.
  - apply loadRandomPoem_countdown.
Qed.

Lemma NewTimerModelWithMode_countdown db now minutes sid sname mode :
  countdown (NewTimerModelWithMode db now minutes sid sname mode)
  = (Int64.mul minutes 60, Int64.mul minutes 60, true, false).
Proof.
  unfold NewTimerModelWithMode. destruct mode.
  - rewrite loadRandomQuote_countdown. reflexivity.
  - rewrite loadRandomPoem_countdown. reflexivity.
Qed.

Lemma sub1_small (r : Z) : 0 < r <= Int64.max_int -> Int64.sub r 1 = r - 1.
Proof.
  intros H. unfold Int64.sub. apply wrap_small.
  unfold Int64.min_int, Int64.max_int in *. lia.
Qed.


(** C1. Ticking a [Running] timer: with [r > 1] seconds left the timer
    counts down by exactly one second, stays [Running] and schedules the
    next tick; with [r = 1] it reaches 0, stops running, emits exactly one
    [TimerCompleteMsg{Completed: true}] and schedules nothing, so later
    ticks do nothing.  ([r] is a Go [int], at most [Int64.max_int].) *)
Theorem tick_running_counts_down (db : DbAnswer) (m : TimerModel) :
  timer_state m = Running ->
  remainingSeconds m <= Int64.max_int ->
  (1 < remainingSeconds m ->
     Update db m TickMsg
     = (set_remaining m (remainingSeconds m - 1), CmdTick) /\
     timer_state (set_remaining m (remainingSeconds m - 1)) = Running) /\
  (remainingSeconds m = 1 ->
     exists m',
       Update db m TickMsg = (m', CmdEmit (complete_msg m' true)) /\
       remainingSeconds m' = 0 /\ running m' = false /\
       timer_state m' = Complete /\
       schedule (CmdEmit (complete_msg m' true))
       = ([], [complete_msg m' true]) /\
       forall db', Update db' m' TickMsg = (m', CmdNone)).
Proof.
  intros Hst Hmax. unfold timer_state in Hst.
  destruct (Z.leb_spec (remainingSeconds m) 0) as [H0 | H0]; [discriminate |].
  destruct (confirming m) eqn:Hc; [discriminate |].
  destruct (running m) eqn:Hr; [| discriminate].
  assert (Hsub : Int64.sub (remainingSeconds m) 1 = remainingSeconds m - 1)
    by (apply sub1_small; lia).
  assert (Hlt : (0 <? remainingSeconds m) = true) by (apply Z.ltb_lt; lia).
  split.
  - intros H1. unfold Update. rewrite Hr, Hlt, Hsub. cbn.
    destruct (Z.leb_spec (remainingSeconds m - 1) 0) as [H2 | H2]; [lia |].
    split; [reflexivity |].
    unfold timer_state; cbn. rewrite Hc, Hr.
    destruct (Z.leb_spec (remainingSeconds m - 1) 0); [lia | reflexivity].
  - intros H1.
    exists (set_running (set_remaining m (remainingSeconds m - 1)) false).
    unfold Update. rewrite Hr, Hlt, Hsub. cbn.
    rewrite H1. cbn.
    repeat split; reflexivity.
Qed.


Lemma loadRandomContent_confirming (db : DbAnswer) (m : TimerModel) :
  confirming (loadRandomContent db m) = confirming m /\
  running (loadRandomContent db m) = running m /\
  remainingSeconds (loadRandomContent db m) = remainingSeconds m /\
  totalSeconds (loadRandomContent db m) = totalSeconds m.
Proof.
  pose proof (loadRandomContent_countdown db m) as H.
  unfold countdown in H. inversion H. repeat split; assumption.
Qed.

(** In every reachable state the confirmation prompt is only shown while
    time is left and the countdown is suspended. *)
Lemma reachable_confirming (minutes : Z) (m : TimerModel) :
  Reachable minutes m ->
  confirming m = true -> 0 < remainingSeconds m /\ running m = false.
Proof.
  induction 1 as [db now sid sname mode | db m msg Hreach IH].
  - intros Hconf.
    pose proof (NewTimerModelWithMode_countdown db now minutes sid sname mode)
      as Hc.
    unfold countdown in Hc. rewrite Hconf in Hc. discriminate Hc.
  - destruct (confirming m) eqn:Hc.
    + destruct (IH eq_refl) as [Hpos Hr].
      destruct msg as [k | | | |]; cbn [Update]; rewrite ?Hc, ?Hr;
        [ split_ifs | | | destruct (progress_Update (progress m)) | ];
        cbn; rewrite ?Hc, ?Hr; intros Hx; try discriminate Hx; auto.
    + destruct msg as [k | | | |]; cbn [Update]; rewrite ?Hc;
        [ split_ifs | split_ifs | split_ifs
        | destruct (progress_Update (progress m)) | ];
        cbn; rewrite ?Hc;
        try (destruct (loadRandomContent_confirming db m) as [-> _]);
        rewrite ?Hc; intros Hx; try discriminate Hx.
      split; [apply Z.leb_gt; assumption | reflexivity].
Qed.

(** C4. In the [ConfirmingAbandon] state of any reachable timer, "y"
    emits [TimerCompleteMsg{Completed: false}] whatever time is left (the
    state itself is left as it is), and "n" returns to [Running] with the
    remaining time unchanged and the next tick scheduled. *)
Theorem confirming_yes_no (minutes : Z) (db : DbAnswer) (m : TimerModel) :
  Reachable minutes m ->
  confirming m = true ->
  timer_state m = ConfirmingAbandon /\
  Update db m (KeyMsg "y") = (m, CmdEmit (complete_msg m false)) /\
  Update db m (KeyMsg "n")
  = (set_running (set_confirming m false) true, CmdTick) /\
  timer_state (set_running (set_confirming m false) true) = Running /\
  remainingSeconds (set_running (set_confirming m false) true)
  = remainingSeconds m.
Proof.
  intros Hreach Hc.
  destruct (reachable_confirming minutes m Hreach Hc) as [Hpos Hr].
  assert (Hle : (remainingSeconds m <=? 0) = false) by (apply Z.leb_gt; lia).
  unfold timer_state. cbn. rewrite Hle, Hc.
  repeat split; cbn [Update]; rewrite ?Hle, ?Hc; reflexivity.
Qed.

(** C3 (as the code has it).  Once no time is left, no message changes
    the countdown (total, remaining, running and confirming flags); timer
    and content wake-ups emit no outcome, but every key press emits
    [TimerCompleteMsg{Completed: true}] again ("any key returns to
    menu"). *)
Theorem complete_keeps_countdown (db : DbAnswer) (m : TimerModel)
  (msg : Msg) :
  timer_state m = Complete ->
  countdown (fst (Update db m msg)) = countdown m /\
  match msg with
  | KeyMsg _ => snd (Update db m msg) = CmdEmit (complete_msg m true)
  | _ => snd (schedule (snd (Update db m msg))) = []
  end.
Proof.
  intros Hst. unfold timer_state in Hst.
  destruct (Z.leb_spec (remainingSeconds m) 0) as [H0 | H0];
    [| destruct (confirming m), (running m); discriminate].
  assert (Hle : (remainingSeconds m <=? 0) = true) by (apply Z.leb_le; lia).
  assert (Hlt : (0 <? remainingSeconds m) = false) by (apply Z.ltb_ge; lia).
  destruct msg as [k | | | |]; cbn [Update].
  - rewrite Hle. split; reflexivity.
  - rewrite Hlt, andb_false_r. split; reflexivity.
  - destruct (running m).
    + split; [apply loadRandomContent_countdown | reflexivity].
    + split; reflexivity.
  - destruct (progress_Update (progress m)) as [p []]; split; reflexivity.
  - split; reflexivity.
Qed.


Lemma Update_total (db : DbAnswer) (m : TimerModel) (msg : Msg) :
  totalSeconds (fst (Update db m msg)) = totalSeconds m.
Proof.
  destruct msg as [k | | | |]; cbn [Update];
    [ split_ifs | split_ifs | split_ifs
    | destruct (progress_Update (progress m)) | ]; cbn; try reflexivity.
  apply loadRandomContent_confirming.
Qed.

Lemma Update_remaining (db : DbAnswer) (m : TimerModel) (msg : Msg) :
  remainingSeconds (fst (Update db m msg)) = remainingSeconds m \/
  remainingSeconds (fst (Update db m msg)) = totalSeconds m \/
  (0 < remainingSeconds m /\
   remainingSeconds (fst (Update db m msg)) = Int64.sub (remainingSeconds m) 1).
Proof.
  destruct msg as [k | | | |]; cbn [Update];
    [ split_ifs | split_ifs | split_ifs
    | destruct (progress_Update (progress m)) | ]; cbn; auto.
  - right; right. apply andb_true_iff in E as [_ E]. apply Z.ltb_lt in E. auto.
  - right; right. apply andb_true_iff in E as [_ E]. apply Z.ltb_lt in E. auto.
  - left. apply loadRandomContent_confirming.
Qed.

(** C5 (as the code has it).  [minutes * 60] is computed in Go's 64-bit
    [int]: when the product fits (the application always passes 25), a
    fresh timer has remaining = total = minutes * 60, and every reachable
    state keeps that total and a remaining time within [0, total]. *)
Theorem remaining_within_total (minutes : Z) (m : TimerModel) :
  0 <= minutes -> minutes * 60 <= Int64.max_int ->
  (forall db now sid sname mode,
     countdown (NewTimerModelWithMode db now minutes sid sname mode)
     = (minutes * 60, minutes * 60, true, false)) /\
  (Reachable minutes m ->
   totalSeconds m = minutes * 60 /\
   0 <= remainingSeconds m <= totalSeconds m).
Proof.
  intros Hmin Hmax.
  assert (Hmul : Int64.mul minutes 60 = minutes * 60).
  { unfold Int64.mul. apply wrap_small.
    unfold Int64.min_int, Int64.max_int in *. lia. }
  split.
  - intros db now sid sname mode.
    rewrite NewTimerModelWithMode_countdown, Hmul. reflexivity.
  - induction 1 as [db now sid sname mode | db m' msg Hreach IH].
    + pose proof (NewTimerModelWithMode_countdown db now minutes sid sname mode)
        as Hc.
      unfold countdown in Hc. rewrite Hmul in Hc.
      injection Hc as Ht Hr _ _. rewrite Ht, Hr. lia.
    + destruct IH as [Ht Hr]. rewrite Update_total.
      split; [exact Ht |].
      destruct (Update_remaining db m' msg) as [-> | [-> | [Hpos ->]]];
        [lia | lia |].
      rewrite sub1_small by lia. lia.
Qed.

(** C6. Pausing a [Running] timer and resuming it with no tick in between
    gives back exactly the same timer (so remaining and total are
    unchanged) and schedules the next tick; while paused a tick changes
    nothing and schedules nothing. *)
Theorem pause_resume_identity (db1 db2 : DbAnswer) (m : TimerModel) :
  timer_state m = Running ->
  Update db1 m (KeyMsg " ") = (set_running m false, CmdNone) /\
  timer_state (set_running m false) = Paused /\
  countdown (set_running m false)
  = (totalSeconds m, remainingSeconds m, false, false) /\
  Update db2 (set_running m false) (KeyMsg " ") = (m, CmdTick) /\
  (forall db m', timer_state m' = Paused -> Update db m' TickMsg = (m', CmdNone)).
Proof.
  intros Hst. unfold timer_state in Hst.
  destruct (Z.leb_spec (remainingSeconds m) 0) as [H0 | H0]; [discriminate |].
  destruct (confirming m) eqn:Hc; [discriminate |].
  destruct (running m) eqn:Hr; [| discriminate].
  assert (Hle : (remainingSeconds m <=? 0) = false) by (apply Z.leb_gt; lia).
  split; [| split; [| split; [| split]]].
  - cbn [Update]. rewrite Hle, Hc, Hr. reflexivity.
  - unfold timer_state. cbn. rewrite Hle, Hc. reflexivity.
  - unfold countdown. cbn. rewrite Hc. reflexivity.
  - cbn [Update]. cbn. rewrite Hle, Hc. cbn.
    f_equal. destruct m; cbn in *. subst. reflexivity.
  - intros db m' Hp. unfold timer_state in Hp.
    destruct (remainingSeconds m' <=? 0), (confirming m') eqn:Hc';
      try discriminate.
    destruct (running m') eqn:Hr'; [discriminate |].
    cbn [Update]. rewrite Hr'. reflexivity.
Qed.

(** C7 (as the code has it).  In the [Running] and [Paused] states the
    "r" key sets remaining back to total, sets the timer running (not
    confirming) and schedules the next tick; in [ConfirmingAbandon] it
    has no effect; in [Complete] it does not reset: like any key it
    emits [TimerCompleteMsg{Completed: true}]. *)
Theorem reset_outside_confirmation (db : DbAnswer) (m : TimerModel) :
  (timer_state m = Running \/ timer_state m = Paused ->
   Update db m (KeyMsg "r")
   = (set_running (set_remaining m (totalSeconds m)) true, CmdTick) /\
   countdown (set_running (set_remaining m (totalSeconds m)) true)
   = (totalSeconds m, totalSeconds m, true, false)) /\
  (timer_state m = ConfirmingAbandon -> Update db m (KeyMsg "r") = (m, CmdNone)) /\
  (timer_state m = Complete ->
   Update db m (KeyMsg "r") = (m, CmdEmit (complete_msg m true))).
Proof.
  unfold timer_state. cbn [Update].
  destruct (remainingSeconds m <=? 0);
    [| destruct (confirming m) eqn:Hc; [| destruct (running m)]].
  - split; [intros [Hx | Hx]; discriminate Hx |].
    split; [intros Hx; discriminate Hx | intros _; reflexivity].
  - split; [intros [Hx | Hx]; discriminate Hx |].
    split; [intros _; reflexivity | intros Hx; discriminate Hx].
  - split.
    + intros _. split; [reflexivity |].
      unfold countdown. cbn. rewrite Hc. reflexivity.
    + split; intros Hx; discriminate Hx.
  - split.
    + intros _. split; [reflexivity |].
      unfold countdown. cbn. rewrite Hc. reflexivity.
    + split; intros Hx; discriminate Hx.
Qed.


(** C9. When the content lookup fails or finds nothing, the timer shows
    the built-in default ("Focus on your task." with no source in quotes
    mode, the Beowulf passage in poems mode), both when it is created and
    at a content rotation; no error is recorded or returned (a rotation
    returns only the next rotation tick) and the countdown is
    unaffected. *)
Theorem content_fallback (db : DbAnswer) :
  (lookup_failed (quote_answer db) = true ->
   (forall now minutes sid sname,
      let m := NewTimerModelWithMode db now minutes sid sname DisplayModeQuotes in
      currentQuote m = default_quote /\ currentSource m = ""%string /\
      countdown m = (Int64.mul minutes 60, Int64.mul minutes 60, true, false)) /\
   (forall m, displayMode m = DisplayModeQuotes -> running m = true ->
      Update db m QuoteTickMsg = (loadRandomContent db m, CmdQuoteTick) /\
      currentQuote (loadRandomContent db m) = default_quote /\
      currentSource (loadRandomContent db m) = ""%string /\
      countdown (loadRandomContent db m) = countdown m)) /\
  (lookup_failed (poem_answer db) = true ->
   (forall now minutes sid sname,
      let m := NewTimerModelWithMode db now minutes sid sname DisplayModePoems in
      currentOldEnglish m = default_OldEnglish /\
      currentModernEnglish m = default_ModernEnglish /\
      currentPoemSource m = default_PoemSource /\
      currentPoemLineRef m = default_PoemLineRef /\
      countdown m = (Int64.mul minutes 60, Int64.mul minutes 60, true, false)) /\
   (forall m, displayMode m = DisplayModePoems -> running m = true ->
      Update db m QuoteTickMsg = (loadRandomContent db m, CmdQuoteTick) /\
      currentOldEnglish (loadRandomContent db m) = default_OldEnglish /\
      currentModernEnglish (loadRandomContent db m) = default_ModernEnglish /\
      currentPoemSource (loadRandomContent db m) = default_PoemSource /\
      currentPoemLineRef (loadRandomContent db m) = default_PoemLineRef /\
      countdown (loadRandomContent db m) = countdown m)).
Proof.
  destruct db as [[[q|] [e|]] [[p|] [e'|]]]; cbn [quote_answer poem_answer];
    split; intros Hf; try discriminate Hf; split;
    try (intros now minutes sid sname; cbn; repeat split; reflexivity);
    intros m Hmode Hrun; cbn [Update]; rewrite Hrun;
    unfold loadRandomContent; rewrite Hmode; cbn; repeat split; reflexivity.
Qed.


Lemma qcount_app (l1 l2 : list Msg) :
  qcount (l1 ++ l2) = (qcount l1 + qcount l2)%nat.
Proof. unfold qcount. rewrite filter_app, length_app. reflexivity. Qed.

(** Only a [quoteTickMsg] received while running schedules the next
    content rotation; every other message, resuming and declining the
    abandonment included, schedules none. *)
Lemma quote_tick_scheduled_only_by_rotation (db : DbAnswer) (m : TimerModel)
  (msg : Msg) :
  qcount (fst (schedule (snd (Update db m msg))))
  = if is_QuoteTickMsg msg && running m then 1%nat else 0%nat.
Proof.
  destruct msg as [k | | | |]; cbn [Update is_QuoteTickMsg andb];
    [ split_ifs | split_ifs | destruct (running m)
    | destruct (progress_Update (progress m)) as [p []] | ];
    reflexivity.
Qed.

Lemma deliver_spec (db : DbAnswer) (s : Runtime) (msg : Msg)
  (rest : list Msg) :
  qcount (rt_pending (deliver progress_Update db s msg rest))
  = (qcount rest +
     if is_QuoteTickMsg msg && running (rt_timer s) then 1 else 0)%nat /\
  rt_rotations (deliver progress_Update db s msg rest)
  = if is_QuoteTickMsg msg && running (rt_timer s)
    then S (rt_rotations s) else rt_rotations s.
Proof.
  pose proof (quote_tick_scheduled_only_by_rotation db (rt_timer s) msg) as Hq.
  unfold deliver.
  destruct (Update db (rt_timer s) msg) as [m' c]. cbn [snd] in Hq.
  destruct (schedule c) as [ms os]. cbn [fst] in Hq.
  cbn [rt_pending rt_rotations].
  rewrite qcount_app, Hq. split; reflexivity.
Qed.

Lemma remove_nth_qcount (l : list Msg) (i : nat) (x : Msg) :
  nth_error l i = Some x ->
  qcount l = (qcount (remove_nth i l) + if is_QuoteTickMsg x then 1 else 0)%nat.
Proof.
  revert i. induction l as [| y l IH]; intros [| i] H; cbn in H;
    try discriminate H.
  - injection H as ->. unfold qcount. cbn.
    destruct (is_QuoteTickMsg x); cbn; lia.
  - specialize (IH i H). unfold qcount in *. cbn.
    destruct (is_QuoteTickMsg y); cbn; lia.
Qed.

Lemma rt_step_qcount (db : DbAnswer) (s : Runtime) (e : Event) :
  (qcount (rt_pending (rt_step progress_Update db s e)) <= qcount (rt_pending s))%nat.
Proof.
  destruct e as [k | i |]; cbn [rt_step].
  - rewrite (proj1 (deliver_spec db s (KeyMsg k) _)). cbn. lia.
  - destruct (nth_error (rt_pending s) i) as [msg |] eqn:Hn; [| lia].
    rewrite (proj1 (deliver_spec db s msg _)).
    rewrite (remove_nth_qcount _ _ _ Hn).
    destruct (is_QuoteTickMsg msg), (running (rt_timer s)); cbn; lia.
  - rewrite (proj1 (deliver_spec db s OtherMsg _)). cbn. lia.
Qed.

Lemma rt_step_no_rotation (db : DbAnswer) (s : Runtime) (e : Event) :
  qcount (rt_pending s) = 0%nat ->
  rt_rotations (rt_step progress_Update db s e) = rt_rotations s.
Proof.
  intros H0.
  destruct e as [k | i |]; cbn [rt_step].
  - apply (proj2 (deliver_spec db s (KeyMsg k) _)).
  - destruct (nth_error (rt_pending s) i) as [msg |] eqn:Hn; [| reflexivity].
    rewrite (proj2 (deliver_spec db s msg _)).
    pose proof (remove_nth_qcount _ _ _ Hn) as Hq.
    destruct (is_QuoteTickMsg msg), (running (rt_timer s)); cbn in *;
      reflexivity || lia.
  - apply (proj2 (deliver_spec db s OtherMsg _)).
Qed.

Lemma run_qcount (tr : list (DbAnswer * Event)) (s : Runtime) :
  (qcount (rt_pending (run tr s)) <= qcount (rt_pending s))%nat.
Proof.
  revert s. induction tr as [| [db e] tr IH]; intros s; cbn; [lia |].
  specialize (IH (rt_step progress_Update db s e)).
  pose proof (rt_step_qcount db s e). lia.
Qed.

Lemma run_no_rotation (tr : list (DbAnswer * Event)) (s : Runtime) :
  qcount (rt_pending s) = 0%nat ->
  rt_rotations (run tr s) = rt_rotations s /\
  qcount (rt_pending (run tr s)) = 0%nat.
Proof.
  revert s. induction tr as [| [db e] tr IH]; intros s H0; cbn; [auto |].
  pose proof (rt_step_qcount db s e) as Hle.
  destruct (IH (rt_step progress_Update db s e)) as [-> ->]; [lia |].
  split; [apply rt_step_no_rotation |]; auto.
Qed.

Lemma start_session_qcount db now minutes sid sname mode :
  qcount (rt_pending (start_session db now minutes sid sname mode)) = 1%nat.
Proof. reflexivity. Qed.

Lemma qcount_In (l : list Msg) :
  qcount l = 0%nat -> ~ In QuoteTickMsg l.
Proof.
  unfold qcount. intros H Hin.
  assert (Hf : In QuoteTickMsg (filter is_QuoteTickMsg l))
    by (apply filter_In; auto).
  destruct (filter is_QuoteTickMsg l); [contradiction | discriminate H].
Qed.

Lemma qcount_not_In (l : list Msg) :
  ~ In QuoteTickMsg l -> qcount l = 0%nat.
Proof.
  intros H. unfold qcount.
  destruct (filter is_QuoteTickMsg l) as [| x xs] eqn:E; [reflexivity |].
  exfalso.
  assert (Hx : In x (filter is_QuoteTickMsg l)) by (rewrite E; left; reflexivity).
  apply filter_In in Hx as [Hx Hq].
  destruct x; try discriminate Hq. exact (H Hx).
Qed.

Lemma start_session_after_qcount leftover db now minutes sid sname mode :
  ~ In QuoteTickMsg leftover ->
  qcount (rt_pending (start_session_after leftover db now minutes sid sname mode))
  = 1%nat.
Proof.
  intros H. unfold start_session_after.
  cbn [rt_pending]. rewrite qcount_app, (qcount_not_In _ H).
  reflexivity.
Qed.

(** C10 (amended).  [Init] schedules one content-rotation wake-up, and
    [Update] schedules one exactly when it receives a rotation wake-up
    while the timer runs (resuming and declining abandonment schedule only
    the one-second tick).  So in a session started while no rotation
    wake-up of an earlier session is in flight (other leftover wake-ups
    are allowed), once a rotation wake-up is received while the timer is
    paused or confirming, whatever happens afterwards no rotation takes
    place and no rotation wake-up is pending again. *)
Theorem quote_rotation_stops :
  (forall m : TimerModel, qcount (fst (schedule (Init m))) = 1%nat) /\
  (forall (db : DbAnswer) (m : TimerModel) (msg : Msg),
     qcount (fst (schedule (snd (Update db m msg))))
     = if is_QuoteTickMsg msg && running m then 1%nat else 0%nat) /\
  (forall (leftover : list Msg) (db0 db : DbAnswer) (now minutes : Z)
     (sid sname : string) (mode : DisplayMode)
     (tr1 tr2 : list (DbAnswer * Event)) (i : nat),
   ~ In QuoteTickMsg leftover ->
   nth_error (rt_pending (run tr1 (start_session_after leftover db0 now minutes
                                     sid sname mode))) i
   = Some QuoteTickMsg ->
   running (rt_timer (run tr1 (start_session_after leftover db0 now minutes
                                 sid sname mode)))
   = false ->
   let s := run tr1 (start_session_after leftover db0 now minutes sid sname mode) in
   let s' := run tr2 (rt_step progress_Update db s (EvFire i)) in
   rt_rotations s' = rt_rotations s /\ ~ In QuoteTickMsg (rt_pending s')).
Proof.
  split; [intros m; reflexivity |].
  split; [exact quote_tick_scheduled_only_by_rotation |].
  intros leftover db0 db now minutes sid sname mode tr1 tr2 i Hl Hn Hr s s'.
  fold s in Hn, Hr.
  assert (Hle : (qcount (rt_pending s) <= 1)%nat).
  { rewrite <- (start_session_after_qcount leftover db0 now minutes sid sname mode Hl).
    apply run_qcount. }
  pose proof (remove_nth_qcount _ _ _ Hn) as Hq. cbn in Hq.
  assert (Hstep : qcount (rt_pending (rt_step progress_Update db s (EvFire i))) = 0%nat /\
                  rt_rotations (rt_step progress_Update db s (EvFire i)) = rt_rotations s).
  { cbn [rt_step]. rewrite Hn.
    rewrite (proj1 (deliver_spec db s QuoteTickMsg _)),
            (proj2 (deliver_spec db s QuoteTickMsg _)), Hr.
    cbn. split; [lia | reflexivity]. }
  destruct Hstep as [H0 Hrot].
  destruct (run_no_rotation tr2 _ H0) as [Hrot' Hq'].
  unfold s'. split.
  - rewrite Hrot'. exact Hrot.
  - apply qcount_In. exact Hq'.
Qed.

End TimerProofs.

(** ** Counterexamples on concrete sessions *)

(** C3 fails as stated: a one-minute session reaches 0 after 60 ticks and
    the 60th tick emits the outcome; a key press afterwards emits a
    second [TimerCompleteMsg{Completed: true}]. *)
Lemma complete_key_emits_again :
  let m59 := tick_n 59 demo_timer in
  let m60 := tick_n 60 demo_timer in
  Update still_progress_Update db_empty m59 TickMsg
  = (m60, CmdEmit (complete_msg m60 true)) /\
  remainingSeconds m60 = 0 /\
  Update still_progress_Update db_empty m60 (KeyMsg "x")
  = (m60, CmdEmit (complete_msg m60 true)).
Proof. vm_compute. repeat split. Qed.

(** C5 fails as stated: with [D = 153722867280912931] minutes the product
    [D * 60] overflows Go's [int]; the fresh timer has a negative total
    and remaining time, not [D * 60]. *)
Lemma timer_total_overflows :
  let D := 153722867280912931 in
  let m := NewTimerModelWithMode tt db_empty 0 D "s1" "GoLang"
             DisplayModeQuotes in
  0 <= D /\ totalSeconds m = -9223372036854775756 /\
  totalSeconds m <> D * 60 /\ remainingSeconds m < 0.
Proof. vm_compute. repeat split; discriminate. Qed.

(** C7 fails as stated: [Complete] is not a confirming state, yet "r" does
    not set remaining (0) back to total (60) there. *)
Lemma reset_ignored_when_complete :
  let m60 := tick_n 60 demo_timer in
  timer_state m60 = Complete /\ confirming m60 = false /\
  totalSeconds m60 = 60 /\
  Update still_progress_Update db_empty m60 (KeyMsg "r")
  = (m60, CmdEmit (complete_msg m60 true)) /\
  remainingSeconds m60 = 0.
Proof. vm_compute. repeat split. Qed.


(** C10 fails as stated: [tea.Tick] cannot be cancelled, so after a
    session is abandoned its rotation wake-up is still in flight and, when
    the next session has started, [AppModel.Update] routes it to the new
    timer, which starts a second rotation chain.  In [restart_trace]
    session 2 (started at 200, timer view, paused) has two rotation
    wake-ups pending; it receives one while paused, which kills one chain
    only; after "space" resumes it, the other one rotates the content in
    the same session. *)
Lemma stale_rotation_tick_revives :
  let s := demo_app_run restart_trace demo_app_start in
  let s1 := demo_app_step (demo_env 203) s (AEvFire 4) in
  let s2 := demo_app_run [(demo_env 204, AEvKey " ");
                          (demo_env 205, AEvFire 4)] s1 in
  List.length (ar_sessions s) = 1%nat /\
  currentView (ar_app s) = TimerViewState /\
  startedAt (timer (ar_app s)) = 200%Z /\
  nth_error (ar_pending s) 4 = Some (ACTimer CmdQuoteTick) /\
  running (timer (ar_app s)) = false /\ confirming (timer (ar_app s)) = false /\
  ar_rotations s1 = ar_rotations s /\
  currentView (ar_app s1) = TimerViewState /\
  currentView (ar_app s2) = TimerViewState /\
  startedAt (timer (ar_app s2)) = 200%Z /\
  ar_sessions s2 = ar_sessions s /\
  ar_rotations s2 = S (ar_rotations s1).
Proof. vm_compute. repeat split. Qed.

(** ** Proofs about the streak calculator *)
Module StreakProofs.
Import Streaks.

Abbreviation desc := (StronglySorted Z.gt).

Lemma inner_spec (rest : list Z) :
  forall cur c r, inner cur rest = (c, r) ->
  Permutation (cur :: rest) (c :: r) /\ cur <= c /\
  Forall (fun y => y <= c) r /\ List.length r = List.length rest.
Proof.
  induction rest as [| x xs IH]; intros cur c r H; cbn in H.
  - injection H as <- <-. repeat split; auto; lia.
  - destruct (Z.ltb_spec cur x) as [Hlt | Hge].
    + destruct (inner x xs) as [c' r'] eqn:E. injection H as <- <-.
      destruct (IH x c' r' E) as (Hp & Hxc & Hall & Hlen).
      split; [| split; [lia | split; [constructor; [lia | exact Hall] |]]].
      * transitivity (cur :: c' :: r'); [constructor; exact Hp | apply perm_swap].
      * cbn. rewrite Hlen. reflexivity.
    + destruct (inner cur xs) as [c' r'] eqn:E. injection H as <- <-.
      destruct (IH cur c' r' E) as (Hp & Hxc & Hall & Hlen).
      split; [| split; [lia | split; [constructor; [lia | exact Hall] |]]].
      * transitivity (x :: cur :: xs); [apply perm_swap |].
        transitivity (x :: c' :: r'); [constructor; exact Hp | apply perm_swap].
      * cbn. rewrite Hlen. reflexivity.
Qed.

Lemma sort_pass_spec (fuel : nat) :
  forall l, (List.length l <= fuel)%nat ->
  Permutation l (sort_pass fuel l) /\ (NoDup l -> desc (sort_pass fuel l)).
Proof.
  induction fuel as [| f IH]; intros l Hlen.
  - destruct l; cbn in Hlen; [| lia].
    split; [constructor | intros _; constructor].
  - destruct l as [| x xs]; [split; [constructor | intros _; constructor] |].
    cbn. destruct (inner x xs) as [c r] eqn:E.
    destruct (inner_spec xs x c r E) as (Hp & _ & Hall & Hlen').
    cbn in Hlen. destruct (IH r ltac:(lia)) as [Hp' Hs'].
    split.
    + rewrite Hp. constructor. exact Hp'.
    + intros Hnd. apply (Permutation_NoDup Hp) in Hnd.
      inversion Hnd as [| ? ? Hnotin Hnd']; subst.
      constructor; [apply Hs'; exact Hnd' |].
      apply Forall_forall. intros y Hy.
      apply (Permutation_in _ (Permutation_sym Hp')) in Hy.
      rewrite Forall_forall in Hall. specialize (Hall y Hy).
      assert (y <> c) by (intros ->; contradiction).
      lia.
Qed.

Lemma sortDescending_spec (l : list Z) :
  Permutation l (sortDescending l) /\ (NoDup l -> desc (sortDescending l)).
Proof. apply sort_pass_spec. lia. Qed.




(** A strictly descending list is determined by its elements. *)
Lemma desc_unique (l1 : list Z) :
  forall l2, desc l1 -> desc l2 -> (forall x, In x l1 <-> In x l2) -> l1 = l2.
Proof.
  induction l1 as [| a t IH]; intros [| b u] H1 H2 Hin.
  - reflexivity.
  - exfalso. apply (proj2 (Hin b)). left. reflexivity.
  - exfalso. apply (proj1 (Hin a)). left. reflexivity.
  - inversion H1 as [| ? ? H1' Ha]; subst.
    inversion H2 as [| ? ? H2' Hb]; subst.
    rewrite Forall_forall in Ha, Hb.
    assert (a = b).
    { destruct (proj1 (Hin a) (or_introl eq_refl)) as [-> | Hau]; [reflexivity |].
      destruct (proj2 (Hin b) (or_introl eq_refl)) as [-> | Hbt]; [reflexivity |].
      specialize (Hb a Hau). specialize (Ha b Hbt). lia. }
    subst b. f_equal. apply IH; [exact H1' | exact H2' |].
    intros x. split; intros Hx.
    + destruct (proj1 (Hin x) (or_intror Hx)) as [Hax | Hx']; [| exact Hx'].
      subst x. specialize (Ha a Hx). lia.
    + destruct (proj2 (Hin x) (or_intror Hx)) as [Hax | Hx']; [| exact Hx'].
      subst x. specialize (Hb a Hx). lia.
Qed.


Lemma runs_cons (x : Z) (xs : list Z) :
  exists n ns, runs (x :: xs) = n :: ns.
Proof.
  cbn. destruct xs as [| y ys]; [eauto |].
  destruct (runs (y :: ys)) as [| n ns]; [eauto |].
  destruct (x - y =? 1); eauto.
Qed.

Lemma runs_step (d x : Z) (xs : list Z) (n : Z) (ns : list Z) :
  runs (x :: xs) = n :: ns ->
  runs (d :: x :: xs)
  = if d - x =? 1 then (n + 1) :: ns else 1 :: n :: ns.
Proof.
  intros H.
  change (runs (d :: x :: xs)) with
    (match x :: xs, runs (x :: xs) with
     | y :: _, n :: ns => if d - y =? 1 then (n + 1) :: ns else 1 :: n :: ns
     | _, _ => [1]
     end).
  rewrite H. reflexivity.
Qed.

(** The current-streak loop counts the first run. *)
Lemma current_run_runs (rest : list Z) :
  forall d, 1 + current_run d rest = hd 0 (runs (d :: rest)).
Proof.
  induction rest as [| x xs IH]; intros d; [reflexivity |].
  destruct (runs_cons x xs) as (n & ns & Hr).
  specialize (IH x). rewrite Hr in IH. cbn [hd] in IH.
  rewrite (runs_step d x xs n ns Hr). cbn [current_run].
  destruct (d - x =? 1); cbn [hd]; lia.
Qed.

Lemma fold_max_nonneg (l : list Z) : 0 <= fold_right Z.max 0 l.
Proof. induction l as [| a l IH]; cbn; lia. Qed.

(** The longest-streak loop takes the maximum of the runs, the first one
    lengthened by the [streak - 1] days already counted. *)
Lemma longest_loop_runs (rest : list Z) :
  forall d streak longest, 1 <= streak ->
  longest_loop d rest streak longest
  = Z.max longest
      (Z.max (streak - 1 + hd 0 (runs (d :: rest)))
             (fold_right Z.max 0 (tl (runs (d :: rest))))).
Proof.
  induction rest as [| x xs IH]; intros d streak longest Hs.
  - cbn. destruct (Z.gtb_spec streak longest); lia.
  - destruct (runs_cons x xs) as (n & ns & Hr).
    rewrite (runs_step d x xs n ns Hr). cbn [longest_loop].
    pose proof (fold_max_nonneg ns).
    destruct (d - x =? 1).
    + rewrite IH by lia. rewrite Hr. cbn. lia.
    + rewrite IH by lia. rewrite Hr. cbn.
      destruct (Z.gtb_spec streak longest); lia.
Qed.

Lemma longestStreak_runs (l : list Z) :
  longestStreak l = fold_right Z.max 0 (runs l).
Proof.
  destruct l as [| d rest]; [reflexivity |].
  unfold longestStreak. rewrite longest_loop_runs by lia.
  destruct (runs_cons d rest) as (n & ns & Hr). rewrite Hr. cbn.
  pose proof (fold_max_nonneg ns). lia.
Qed.

Lemma currentStreak_runs (loc : Zone) (now : Z) (l : list Z) :
  currentStreak loc now l
  = match l with
    | [] => 0
    | d :: _ =>
        if (Truncate_day (day_instant d) =? Truncate_day now) ||
           (Truncate_day (day_instant d) =? AddDate_days loc (Truncate_day now) (-1))
        then hd 0 (runs l) else 0
    end.
Proof.
  destruct l as [| d rest]; [reflexivity |].
  unfold currentStreak. rewrite current_run_runs. reflexivity.
Qed.



(** The code, with any iteration order of the map [days], agrees with
    the streaks of the unique descending list of the completion dates. *)
Lemma calculateStreaks_sorted (loc : Zone) (now : Z) (sessions keys L : list Z) :
  map_iteration sessions keys -> sessions <> [] ->
  desc L -> (forall x, In x L <-> In x sessions) ->
  calculateStreaks loc now sessions keys
  = (currentStreak loc now L, longestStreak L).
Proof.
  intros [Hnd Hk] Hne HL Hin.
  destruct (sortDescending_spec keys) as [Hp Hs].
  assert (Heq : sortDescending keys = L).
  { apply desc_unique; [apply Hs; exact Hnd | exact HL |].
    intros x. rewrite Hin, <- Hk.
    split; apply Permutation_in; [apply Permutation_sym |]; exact Hp. }
  unfold calculateStreaks. destruct sessions as [| s0 ss]; [congruence |].
  rewrite Heq. reflexivity.
Qed.





End StreakProofs.

Module MainProofs.

Import Main.
Local Open Scope string_scope.



End MainProofs.

(** * Instances of the theorems at concrete inputs *)

Local Open Scope string_scope.

Lemma tick_running_counts_down_witness :
  timer_state demo_timer = Running /\
  remainingSeconds demo_timer <= Int64.max_int /\
  Update still_progress_Update db_empty demo_timer TickMsg
  = (set_remaining demo_timer (remainingSeconds demo_timer - 1), CmdTick).
Proof.
  assert (H1 : timer_state demo_timer = Running) by reflexivity.
  assert (H2 : remainingSeconds demo_timer <= Int64.max_int)
    by (vm_compute; discriminate).
  split; [exact H1 | split; [exact H2 |]].
  apply (proj1 (tick_running_counts_down still_progress_Update db_empty
                  demo_timer H1 H2)).
  vm_compute. reflexivity.
Defined.

Lemma confirming_yes_no_witness :
  let m := fst (Update still_progress_Update db_empty demo_timer (KeyMsg "q")) in
  confirming m = true /\
  Update still_progress_Update db_empty m (KeyMsg "y")
  = (m, CmdEmit (complete_msg m false)).
Proof.
  cbv zeta.
  assert (Hr : Reachable tt still_progress_Update 1
                 (fst (Update still_progress_Update db_empty demo_timer
                         (KeyMsg "q")))).
  { apply reach_step. apply reach_new. }
  assert (Hc : confirming (fst (Update still_progress_Update db_empty demo_timer
                                   (KeyMsg "q"))) = true) by reflexivity.
  split; [exact Hc |].
  apply (confirming_yes_no tt still_progress_Update 1 db_empty _ Hr Hc).
Defined.

Lemma complete_keeps_countdown_witness :
  timer_state (tick_n 60 demo_timer) = Complete /\
  snd (Update still_progress_Update db_empty (tick_n 60 demo_timer) (KeyMsg "x"))
  = CmdEmit (complete_msg (tick_n 60 demo_timer) true).
Proof.
  assert (H : timer_state (tick_n 60 demo_timer) = Complete)
    by (vm_compute; reflexivity).
  split; [exact H |].
  apply (proj2 (complete_keeps_countdown still_progress_Update db_empty
                  (tick_n 60 demo_timer) (KeyMsg "x") H)).
Defined.

Lemma remaining_within_total_witness :
  countdown (NewTimerModelWithMode tt db_empty 0 25 "s1" "GoLang"
               DisplayModePoems)
  = (1500, 1500, true, false).
Proof.
  apply (proj1 (remaining_within_total tt still_progress_Update 25 demo_timer
                  ltac:(lia) ltac:(vm_compute; discriminate))).
Defined.

Lemma pause_resume_identity_witness :
  Update still_progress_Update db_empty
    (set_running demo_timer false) (KeyMsg " ")
  = (demo_timer, CmdTick).
Proof.
  apply (pause_resume_identity still_progress_Update db_empty db_empty
           demo_timer).
  reflexivity.
Defined.

Lemma reset_outside_confirmation_witness :
  Update still_progress_Update db_empty (tick_n 10 demo_timer) (KeyMsg "r")
  = (set_running (set_remaining (tick_n 10 demo_timer) 60) true, CmdTick).
Proof.
  apply (reset_outside_confirmation still_progress_Update db_empty
           (tick_n 10 demo_timer)).
  left. vm_compute. reflexivity.
Defined.

Lemma content_fallback_witness :
  currentQuote (NewTimerModelWithMode tt db_empty 0 25 "s1" "GoLang"
                  DisplayModeQuotes) = default_quote.
Proof.
  apply (proj1 (proj1 (content_fallback tt still_progress_Update db_empty)
                  eq_refl) 0 25 "s1" "GoLang").
Defined.

Lemma quote_rotation_stops_witness :
  let s := run still_progress_Update [(db_empty, EvKey " ")]
             (start_session_after tt [TickMsg] db_empty 0 1 "s1" "GoLang"
                DisplayModeQuotes) in
  ~ In QuoteTickMsg [TickMsg] /\
  nth_error (rt_pending s) 2 = Some QuoteTickMsg /\
  running (rt_timer s) = false /\
  ~ In QuoteTickMsg
      (rt_pending (run still_progress_Update [(db_empty, EvKey " ")]
                     (rt_step still_progress_Update db_empty s (EvFire 2)))).
Proof.
  cbv zeta.
  assert (H0 : ~ In QuoteTickMsg [TickMsg])
    by (intros [H | []]; discriminate H).
  assert (H1 : nth_error (rt_pending (run still_progress_Update
                 [(db_empty, EvKey " ")]
                 (start_session_after tt [TickMsg] db_empty 0 1 "s1" "GoLang"
                    DisplayModeQuotes))) 2 = Some QuoteTickMsg)
    by (vm_compute; reflexivity).
  assert (H2 : running (rt_timer (run still_progress_Update
                 [(db_empty, EvKey " ")]
                 (start_session_after tt [TickMsg] db_empty 0 1 "s1" "GoLang"
                    DisplayModeQuotes))) = false)
    by (vm_compute; reflexivity).
  split; [exact H0 | split; [exact H1 | split; [exact H2 |]]].
  apply (proj2 (proj2 (proj2 (quote_rotation_stops tt still_progress_Update))
                  [TickMsg] db_empty db_empty 0 1 "s1" "GoLang" DisplayModeQuotes
                  [(db_empty, EvKey " ")] [(db_empty, EvKey " ")] 2%nat H0 H1 H2)).
Defined.


(** * Further properties of the code *)

(** ** The streak calculator *)
Module StreakBounds.

Import Streaks StreakProofs.
Local Open Scope list_scope.
Local Open Scope Z_scope.

Lemma runs_bounds (l : list Z) :
  Forall (fun r => 1 <= r <= Z.of_nat (List.length l)) (runs l).
Proof.
  induction l as [| x xs IH]; [constructor |].
  destruct xs as [| y ys].
  - cbn. constructor; [lia | constructor].
  - destruct (runs_cons y ys) as (n & ns & Hr).
    rewrite (runs_step x y ys n ns Hr). rewrite Hr in IH.
    inversion IH as [| ? ? Hn Hns]; subst.
    cbn [List.length] in *.
    assert (Hw : Forall (fun r => 1 <= r <= Z.of_nat (S (S (List.length ys))))
                   ns).
    { eapply Forall_impl; [| exact Hns]. intros r Hr'. cbn in Hr'. lia. }
    destruct (x - y =? 1); constructor; [lia | exact Hw | lia |].
    constructor; [cbn in Hn; lia | exact Hw].
Qed.

Lemma fold_max_ge_hd (l : list Z) : hd 0 l <= fold_right Z.max 0 l.
Proof. destruct l; cbn; [lia |]. pose proof (fold_max_nonneg l). lia. Qed.

Lemma fold_max_le (l : list Z) (b : Z) :
  0 <= b -> Forall (fun r => r <= b) l -> fold_right Z.max 0 l <= b.
Proof.
  intros Hb H. induction H as [| r l Hr _ IH]; cbn; lia.
Qed.

Lemma current_le_longest_sorted (loc : Zone) (now : Z) (l : list Z) :
  currentStreak loc now l <= longestStreak l.
Proof.
  rewrite currentStreak_runs, longestStreak_runs.
  pose proof (fold_max_ge_hd (runs l)) as H.
  pose proof (fold_max_nonneg (runs l)).
  destruct l as [| d rest]; [cbn; lia |].
  match goal with |- context [if ?b then _ else _] => destruct b end; lia.
Qed.

(** The current streak never exceeds the longest streak. *)
Theorem current_streak_le_longest (loc : Zone) (now : Z) (sessions keys : list Z) :
  let (cur, lon) := calculateStreaks loc now sessions keys in
  0 <= cur <= lon.
Proof.
  unfold calculateStreaks. destruct sessions as [| s0 ss]; [lia |].
  split; [| apply current_le_longest_sorted].
  rewrite currentStreak_runs.
  destruct (sortDescending keys) as [| d rest] eqn:E; [lia |].
  match goal with |- context [if ?b then _ else _] => destruct b end; [| lia].
  pose proof (runs_bounds (d :: rest)) as Hb.
  destruct (runs_cons d rest) as (n & ns & Hr). rewrite Hr in *.
  inversion Hb; cbn; lia.
Qed.

(** With at least one completed session, the longest streak is at least
    one day and at most the number of distinct completion days; so is the
    current streak at most that number. *)
Theorem longest_streak_bounds (loc : Zone) (now : Z) (sessions keys : list Z) :
  map_iteration sessions keys -> sessions <> [] ->
  let (cur, lon) := calculateStreaks loc now sessions keys in
  1 <= lon <= Z.of_nat (List.length keys) /\
  cur <= Z.of_nat (List.length keys).
Proof.
  intros [Hnd Hk] Hne.
  destruct sessions as [| s0 ss]; [congruence |].
  assert (Hkne : keys <> []).
  { intros ->. apply (proj2 (Hk s0)). left. reflexivity. }
  unfold calculateStreaks.
  destruct (sortDescending_spec keys) as [Hp _].
  pose proof (Permutation_length Hp) as Hlen.
  pose proof (current_le_longest_sorted loc now (sortDescending keys)) as Hcl.
  rewrite longestStreak_runs in *.
  pose proof (runs_bounds (sortDescending keys)) as Hb.
  rewrite <- Hlen in Hb.
  assert (Hup : fold_right Z.max 0 (runs (sortDescending keys))
                <= Z.of_nat (List.length keys)).
  { apply fold_max_le; [lia |].
    eapply Forall_impl; [| exact Hb]. cbn. lia. }
  destruct (sortDescending keys) as [| d rest] eqn:E.
  - destruct keys; [congruence |]. cbn in Hlen. discriminate.
  - destruct (runs_cons d rest) as (n & ns & Hr).
    pose proof (fold_max_ge_hd (runs (d :: rest))) as Hhd.
    rewrite Hr in Hb, Hhd. inversion Hb; subst. cbn in Hhd.
    rewrite Hr in Hup, Hcl |- *. cbn [fold_right] in *. lia.
Qed.

End StreakBounds.

(** ** What a timer session reports, and its wake-ups *)
Section TimerSessions.

Local Open Scope string_scope.
Local Open Scope list_scope.
Local Open Scope Z_scope.

Context {Progress : Type}.
Context (progress_New : Progress).
Context (progress_Update : Progress -> Progress * bool).

Abbreviation TimerModel := (@TimerModel Progress).
Abbreviation Update := (Update progress_Update).
Abbreviation NewTimerModelWithMode := (NewTimerModelWithMode progress_New).
Abbreviation run := (run progress_Update).
Abbreviation start_session := (start_session progress_New).

Lemma loadRandomContent_fields (db : DbAnswer) (m : TimerModel) :
  session_fields (loadRandomContent db m) = session_fields m.
Proof.
  unfold loadRandomContent. destruct (displayMode m).
  - destruct (quote_answer db) as [[q|] [e|]]; reflexivity.
  - destruct (poem_answer db) as [[q|] [e|]]; reflexivity.
Qed.

Lemma NewTimerModelWithMode_fields db now minutes sid sname mode :
  session_fields (NewTimerModelWithMode db now minutes sid sname mode)
  = (sid, sname, Int64.mul minutes 60, now).
Proof.
  unfold NewTimerModelWithMode. destruct mode.
  - destruct (quote_answer db) as [[q|] [e|]]; reflexivity.
  - destruct (poem_answer db) as [[q|] [e|]]; reflexivity.
Qed.

Ltac split_ifs :=
  repeat match goal with
  | |- context [if ?b then _ else _] =>
      let E := fresh "E" in destruct b eqn:E
  end.

Lemma Update_fields (db : DbAnswer) (m : TimerModel) (msg : Msg) :
  session_fields (fst (Update db m msg)) = session_fields m.
Proof.
  destruct msg as [k | | | |]; cbn [Update];
    [ split_ifs | split_ifs | split_ifs
    | destruct (progress_Update (progress m)) | ]; cbn; try reflexivity.
  apply loadRandomContent_fields.
Qed.

(** Every outcome [Update] emits is built from the model's fields. *)
Lemma Update_outcomes (db : DbAnswer) (m : TimerModel) (msg : Msg)
  (o : TimerCompleteMsg) :
  In o (snd (schedule (snd (Update db m msg)))) ->
  (SubjectID o, SubjectName o, Duration o, StartedAt o)
  = (subjectID m, subjectName m, Z.quot (totalSeconds m) 60, startedAt m).
Proof.
  destruct msg as [k | | | |]; cbn [Update];
    [ split_ifs | split_ifs | split_ifs
    | destruct (progress_Update (progress m)) as [p []] | ];
    cbn; intros H; try contradiction;
    destruct H as [H | []]; subst o; reflexivity.
Qed.

Lemma rt_step_session_inv (db : DbAnswer) (s : Runtime) (e : Event) f minutes :
  session_inv f minutes s ->
  session_inv f minutes (rt_step progress_Update db s e).
Proof.
  intros (Hf & Hq & Ho).
  assert (Hd : forall msg rest,
             session_inv f minutes (deliver progress_Update db s msg rest)).
  { intros msg rest. unfold deliver.
    pose proof (Update_fields db (rt_timer s) msg) as Hu.
    pose proof (Update_outcomes db (rt_timer s) msg) as Hout.
    destruct (Update db (rt_timer s) msg) as [m' c]. cbn [fst snd] in *.
    destruct (schedule c) as [ms os]. cbn [snd] in Hout.
    split; [cbn; congruence | split; [exact Hq |]].
    cbn [rt_outcomes]. apply Forall_app. split; [exact Ho |].
    apply Forall_forall. intros o Hin. rewrite (Hout o Hin).
    unfold session_fields in Hf. destruct f as [[[sid sname] t] now].
    injection Hf as -> -> -> ->. cbn in Hq. rewrite Hq. reflexivity. }
  destruct e as [k | i |]; cbn [rt_step]; try apply Hd.
  destruct (nth_error (rt_pending s) i); [apply Hd | split; auto].
Qed.

Lemma run_session_inv (tr : list (DbAnswer * Event)) (s : Runtime) f minutes :
  session_inv f minutes s -> session_inv f minutes (run tr s).
Proof.
  revert s. induction tr as [| [db e] tr IH]; intros s H; [exact H |].
  cbn. apply IH. apply rt_step_session_inv. exact H.
Qed.

Lemma run_outcomes_fields (db : DbAnswer) (now minutes : Z)
  (sid sname : string) (mode : DisplayMode) (tr : list (DbAnswer * Event))
  (o : TimerCompleteMsg) :
  0 <= minutes -> minutes * 60 <= Int64.max_int ->
  In o (rt_outcomes (run tr (start_session db now minutes sid sname mode))) ->
  SubjectID o = sid /\ SubjectName o = sname /\ Duration o = minutes /\
  StartedAt o = now.
Proof.
  intros Hmin Hmax Hin.
  assert (Hmul : Int64.mul minutes 60 = minutes * 60).
  { unfold Int64.mul. apply wrap_small.
    unfold Int64.min_int, Int64.max_int in *. lia. }
  assert (H0 : session_inv (sid, sname, minutes * 60, now) minutes
                 (start_session db now minutes sid sname mode)).
  { unfold start_session.
    split; [| split].
    - pose proof (NewTimerModelWithMode_fields db now minutes sid sname mode)
        as Hf. rewrite Hmul in Hf.
      destruct (schedule (Init _)). exact Hf.
    - cbn. apply Z.quot_mul. lia.
    - cbn. constructor. }
  destruct (run_session_inv tr _ _ _ H0) as (_ & _ & Ho).
  rewrite Forall_forall in Ho. specialize (Ho o Hin).
  injection Ho as H1 H2 H3 H4. auto.
Qed.

(** Every outcome handed to the application during a session started
    with [minutes] (whose seconds fit a Go [int]) reports the session's
    subject id and name, its start time, and the planned duration in
    minutes, whether the session was completed, abandoned early or
    reset. *)
Theorem session_outcomes_report_session (db : DbAnswer) (now minutes : Z)
  (sid sname : string) (mode : DisplayMode) (tr : list (DbAnswer * Event))
  (o : TimerCompleteMsg) :
  0 <= minutes -> minutes * 60 <= Int64.max_int ->
  In o (rt_outcomes (run tr (start_session db now minutes sid sname mode))) ->
  SubjectID o = sid /\ SubjectName o = sname /\ Duration o = minutes /\
  StartedAt o = now.
Proof. apply run_outcomes_fields. Qed.

Lemma tcount_app (l1 l2 : list Msg) :
  tcount (l1 ++ l2) = (tcount l1 + tcount l2)%nat.
Proof. unfold tcount. rewrite filter_app, length_app. reflexivity. Qed.

Lemma remove_nth_tcount (l : list Msg) (i : nat) :
  nth_error l i = Some TickMsg -> S (tcount (remove_nth i l)) = tcount l.
Proof.
  revert i. induction l as [| x l IH]; intros [| i] H; cbn in H;
    try discriminate.
  - injection H as ->. reflexivity.
  - cbn [remove_nth]. unfold tcount in *. cbn [filter].
    destruct (is_TickMsg x); cbn; rewrite <- (IH i H); reflexivity.
Qed.

(** Resuming with the space bar, resetting with [r], and declining the
    abandonment with [n] each schedule a new one-second wake-up without
    cancelling the one still pending; and a pending wake-up delivered to
    a running timer with more than one second left schedules its own
    successor.  So after a pause and a resume before the pending tick
    fires, two tick chains run side by side and the timer counts down
    two seconds per second. *)
Theorem resume_adds_tick_chain (db : DbAnswer) (s : Runtime) :
  (timer_state (rt_timer s) = Paused ->
   rt_pending (rt_step progress_Update db s (EvKey " "))
   = rt_pending s ++ [TickMsg] /\
   timer_state (rt_timer (rt_step progress_Update db s (EvKey " ")))
   = Running) /\
  (0 < remainingSeconds (rt_timer s) -> confirming (rt_timer s) = false ->
   rt_pending (rt_step progress_Update db s (EvKey "r"))
   = rt_pending s ++ [TickMsg]) /\
  (timer_state (rt_timer s) = ConfirmingAbandon ->
   rt_pending (rt_step progress_Update db s (EvKey "n"))
   = rt_pending s ++ [TickMsg]) /\
  (forall i, nth_error (rt_pending s) i = Some TickMsg ->
   timer_state (rt_timer s) = Running ->
   1 < remainingSeconds (rt_timer s) <= Int64.max_int ->
   tcount (rt_pending (rt_step progress_Update db s (EvFire i)))
   = tcount (rt_pending s) /\
   remainingSeconds (rt_timer (rt_step progress_Update db s (EvFire i)))
   = remainingSeconds (rt_timer s) - 1).
Proof.
  unfold timer_state.
  destruct (rt_timer s) as [t r run p conf q1 q2 q3 q4 q5 q6 dm sid sn st]
    eqn:Et.
  cbn [remainingSeconds confirming running].
  split; [| split; [| split]].
  - intros H.
    destruct (Z.leb_spec r 0); [discriminate |].
    destruct conf; [discriminate |]. destruct run; [discriminate |].
    cbn [rt_step]. unfold deliver. rewrite Et.
    assert (Hr0 : (r <=? 0) = false) by (apply Z.leb_gt; lia).
    cbn. rewrite Hr0. cbn. rewrite Hr0. split; reflexivity.
  - intros Hr Hc. subst conf.
    cbn [rt_step]. unfold deliver. rewrite Et.
    assert (Hr0 : (r <=? 0) = false) by (apply Z.leb_gt; lia).
    cbn. rewrite Hr0. reflexivity.
  - intros H.
    destruct (Z.leb_spec r 0); [discriminate |].
    destruct conf; [| destruct run; discriminate].
    cbn [rt_step]. unfold deliver. rewrite Et.
    assert (Hr0 : (r <=? 0) = false) by (apply Z.leb_gt; lia).
    cbn. rewrite Hr0. reflexivity.
  - intros i Hi H Hr.
    destruct (Z.leb_spec r 0); [lia |].
    destruct conf; [discriminate |]. destruct run; [| discriminate].
    cbn [rt_step]. rewrite Hi. unfold deliver. rewrite Et.
    cbn [Update running remainingSeconds andb].
    assert (Hlt : (0 <? r) = true) by (apply Z.ltb_lt; lia).
    rewrite Hlt, sub1_small by lia. cbn.
    destruct (Z.leb_spec (r - 1) 0); [lia |]. cbn.
    fold (tcount (remove_nth i (rt_pending s) ++ [TickMsg])).
    rewrite tcount_app. rewrite <- (remove_nth_tcount _ _ Hi).
    split; [cbn; lia | reflexivity].
Qed.

End TimerSessions.

(** ** The timer's clock display and the seeders' [truncate] *)
Module ViewProofs.

Import TimerView Seed.
Local Open Scope string_scope.
Local Open Scope list_scope.
Local Open Scope Z_scope.

Lemma range_by_computation (f : Z -> bool) (n : nat) :
  forallb (fun k => f (Z.of_nat k)) (seq 0 n) = true ->
  forall r, 0 <= r < Z.of_nat n -> f r = true.
Proof.
  intros H r Hr. rewrite forallb_forall in H.
  rewrite <- (Z2Nat.id r) by lia. apply H.
  apply in_seq. lia.
Qed.

(** The countdown is shown as [MM:SS]: for every remaining time below
    100 minutes (a session is 25 minutes), the display is five
    characters, two digits of minutes, a colon and two digits of seconds,
    and reading them back gives the remaining time. *)
Theorem timeDisplay_mmss (r : Z) :
  0 <= r < 6000 -> read_mmss (timeDisplay r) = Some r.
Proof.
  intros Hr.
  assert (H : forall r, 0 <= r < Z.of_nat (60 * 100) ->
                (match read_mmss (timeDisplay r) with
                 | Some v => v =? r
                 | None => false
                 end) = true).
  { apply range_by_computation. vm_compute. reflexivity. }
  specialize (H r Hr).
  destruct (read_mmss (timeDisplay r)) as [v |]; [| discriminate].
  apply Z.eqb_eq in H. subst v. reflexivity.
Qed.

Lemma string_length_append (a b : string) :
  String.length (a ++ b) = (String.length a + String.length b)%nat.
Proof. induction a as [| c a IH]; cbn; [reflexivity | rewrite IH; reflexivity]. Qed.

Lemma substring_0_length (n : nat) (s : string) :
  (n <= String.length s)%nat -> String.length (substring 0 n s) = n.
Proof.
  revert s. induction n as [| n IH]; intros s H.
  - destruct s; reflexivity.
  - destruct s as [| c s]; cbn in *; [lia |].
    rewrite IH by lia. reflexivity.
Qed.

(** [truncate(s, max)] with [max >= 0] returns [s] when it has at most
    [max] bytes, and otherwise its first [max] bytes followed by ["..."],
    exactly [max + 3] bytes; so the result never exceeds [max + 3] bytes.
    With a negative [max] and [len(s) > max] the slice panics. *)
Theorem truncate_spec (s : string) (max : Z) :
  (0 <= max ->
   exists t, truncate s max = Some t /\
     (Z.of_nat (String.length s) <= max -> t = s) /\
     (max < Z.of_nat (String.length s) ->
        t = (substring 0 (Z.to_nat max) s ++ "...")%string /\
        Z.of_nat (String.length t) = max + 3) /\
     Z.of_nat (String.length t) <= max + 3) /\
  (max < 0 -> max < Z.of_nat (String.length s) -> truncate s max = None).
Proof.
  split.
  - intros Hmax. unfold truncate.
    destruct (Z.leb_spec (Z.of_nat (String.length s)) max) as [Hle | Hgt].
    + exists s. split; [reflexivity |]. split; [reflexivity |].
      split; [lia | lia].
    + destruct (Z.ltb_spec max 0); [lia |].
      eexists. split; [reflexivity |]. split; [lia |].
      assert (Hl : Z.of_nat (String.length
                     (substring 0 (Z.to_nat max) s ++ "...")) = max + 3).
      { rewrite string_length_append, substring_0_length by lia. cbn. lia. }
      split; [split; [reflexivity | exact Hl] | lia].
  - intros Hneg Hgt. unfold truncate.
    destruct (Z.leb_spec (Z.of_nat (String.length s)) max); [lia |].
    destruct (Z.ltb_spec max 0); [reflexivity | lia].
Qed.

End ViewProofs.

(** ** The main menu ([MenuModel], ui/timer.go) *)
Module MenuProofs.

Local Open Scope string_scope.
Local Open Scope list_scope.
Local Open Scope Z_scope.

Lemma set_nth_length {A : Type} (i : nat) (x : A) (l : list A) :
  List.length (set_nth i x l) = List.length l.
Proof.
  revert i. induction l as [| y l IH]; intros [| i]; cbn; auto.
Qed.

Lemma set_nth_nth {A : Type} (i : nat) (x d : A) (l : list A) :
  (i < List.length l)%nat -> nth i (set_nth i x l) d = x.
Proof.
  revert i. induction l as [| y l IH]; intros [| i] H; cbn in *;
    try lia; auto.
  apply IH. lia.
Qed.

Lemma set_nth_set_nth {A : Type} (i : nat) (x y : A) (l : list A) :
  set_nth i x (set_nth i y l) = set_nth i x l.
Proof.
  revert i. induction l as [| z l IH]; intros [| i]; cbn; auto.
  rewrite IH. reflexivity.
Qed.

Ltac split_ifs :=
  repeat match goal with
  | |- context [if ?b then _ else _] =>
      let E := fresh "E" in destruct b eqn:E
  end.

(** Every menu the application can reach has its five items, a cursor
    on one of them, and the display-mode item labelled with the current
    display mode. *)
Theorem menu_invariant (m : MenuModel) :
  MenuReachable m ->
  List.length (choices m) = 5%nat /\ 0 <= cursor m <= 4 /\
  text (nth 3 (choices m) {| icon := ""; text := "" |})
  = mode_label (menu_displayMode m).
Proof.
  induction 1 as [| m msg Hm IH | m s Hm IH].
  - cbn. repeat split; lia.
  - destruct IH as (Hl & Hc & Ht).
    destruct msg as [[k | | | |] | | | | | | | | | | ]; cbn [MenuUpdate fst];
      try (repeat split; assumption).
    unfold ToggleDisplayMode. rewrite Hl. cbn [Z.of_nat Pos.of_succ_nat].
    split_ifs; cbn [fst];
      try (split; [exact Hl | split; [exact Hc | exact Ht]]);
      repeat match goal with
      | H : (_ <? _) = true |- _ => apply Z.ltb_lt in H
      | H : (_ =? _) = true |- _ => apply Z.eqb_eq in H
      end.
    all: unfold updateDisplayModeText in *;
      cbn [choices cursor menu_displayMode set_menu_mode set_cursor] in *;
      rewrite ?set_nth_length; try rewrite set_nth_nth by lia;
      repeat match goal with
      | H : menu_displayMode _ = _ |- _ => rewrite H in *
      end;
      cbn [mode_label text] in *;
      (split; [assumption | split; [lia | first [assumption | reflexivity]]]).
  - exact IH.
Qed.

(** With the cursor on the display-mode item, [enter] (or space) flips
    the display mode and asks for nothing; pressing it twice gives back
    the display mode, cursor, streak and the other items, with item 3
    replaced by the label [updateDisplayModeText] writes for that mode. *)
Theorem toggle_twice (m : MenuModel) (k1 k2 : string) :
  cursor m = ToggleDisplayMode -> In k1 ["enter"; " "] -> In k2 ["enter"; " "] ->
  snd (MenuUpdate m (ABase (KeyMsg k1))) = ACNone /\
  menu_displayMode (fst (MenuUpdate m (ABase (KeyMsg k1))))
  <> menu_displayMode m /\
  MenuUpdate (fst (MenuUpdate m (ABase (KeyMsg k1)))) (ABase (KeyMsg k2))
  = (updateDisplayModeText m, ACNone).
Proof.
  intros Hc H1 H2.
  destruct m as [ch c st d]. cbn in Hc. subst c.
  destruct H1 as [<- | [<- | []]]; destruct H2 as [<- | [<- | []]];
    destruct d; cbn -[set_nth]; unfold updateDisplayModeText; cbn -[set_nth];
    rewrite ?set_nth_set_nth; repeat split; first [reflexivity | discriminate].
Qed.

End MenuProofs.

(** ** The persistence layer (package db) *)
Module DbProofs.

Import Db.
Local Open Scope string_scope.
Local Open Scope list_scope.
Local Open Scope Z_scope.

(** *** Object ids *)

Lemma ascii_cases (f : Ascii.ascii -> bool) :
  (forall b0 b1 b2 b3 b4 b5 b6 b7,
     f (Ascii.Ascii b0 b1 b2 b3 b4 b5 b6 b7) = true) ->
  forall c, f c = true.
Proof. intros H [b0 b1 b2 b3 b4 b5 b6 b7]. apply H. Qed.

Lemma lower_hex_lower (c : Ascii.ascii) :
  is_hex_digit c = true -> is_lower_hex_digit (lower_hex c) = true.
Proof.
  intros H.
  pose proof (ascii_cases (fun c => implb (is_hex_digit c)
                                  (is_lower_hex_digit (lower_hex c)))
                  ltac:(intros [] [] [] [] [] [] [] []; reflexivity) c) as Hc.
  cbv beta in Hc. rewrite H in Hc. exact Hc.
Qed.

Lemma lower_hex_id (c : Ascii.ascii) :
  is_lower_hex_digit c = true -> lower_hex c = c.
Proof.
  intros H.
  assert (Hc : forall c, implb (is_lower_hex_digit c)
                          (Ascii.eqb (lower_hex c) c) = true).
  { apply ascii_cases. intros [] [] [] [] [] [] [] []; reflexivity. }
  specialize (Hc c). rewrite H in Hc. cbn in Hc.
  apply Ascii.eqb_eq. exact Hc.
Qed.

Lemma lower_hex_digit_hex (c : Ascii.ascii) :
  is_lower_hex_digit c = true -> is_hex_digit c = true.
Proof.
  intros H.
  pose proof (ascii_cases (fun c => implb (is_lower_hex_digit c)
                                  (is_hex_digit c))
                  ltac:(intros [] [] [] [] [] [] [] []; reflexivity) c) as Hc.
  cbv beta in Hc. rewrite H in Hc. exact Hc.
Qed.

Lemma string_map_length (f : Ascii.ascii -> Ascii.ascii) (s : string) :
  String.length (string_map f s) = String.length s.
Proof. induction s as [| c s IH]; cbn; congruence. Qed.

Lemma string_forallb_map (p q : Ascii.ascii -> bool)
  (f : Ascii.ascii -> Ascii.ascii) (s : string) :
  (forall c, p c = true -> q (f c) = true) ->
  string_forallb p s = true -> string_forallb q (string_map f s) = true.
Proof.
  intros Hpq. induction s as [| c s IH]; cbn; [reflexivity |].
  intros H. apply andb_true_iff in H as [H1 H2].
  rewrite (Hpq c H1), (IH H2). reflexivity.
Qed.

Lemma string_map_fix (p : Ascii.ascii -> bool) (f : Ascii.ascii -> Ascii.ascii)
  (s : string) :
  (forall c, p c = true -> f c = c) ->
  string_forallb p s = true -> string_map f s = s.
Proof.
  intros Hf. induction s as [| c s IH]; cbn; [reflexivity |].
  intros H. apply andb_true_iff in H as [H1 H2].
  rewrite (Hf c H1), (IH H2). reflexivity.
Qed.

Lemma string_forallb_impl (p q : Ascii.ascii -> bool) (s : string) :
  (forall c, p c = true -> q c = true) ->
  string_forallb p s = true -> string_forallb q s = true.
Proof.
  intros Hpq. induction s as [| c s IH]; cbn; [reflexivity |].
  intros H. apply andb_true_iff in H as [H1 H2].
  rewrite (Hpq c H1), (IH H2). reflexivity.
Qed.

Lemma ObjectIDFromHex_valid (s : string) :
  valid_hex_id s = true -> ObjectIDFromHex s = (s, None).
Proof.
  intros Hv. unfold valid_hex_id in Hv.
  apply andb_true_iff in Hv as [Hl Hv].
  fold (string_forallb is_lower_hex_digit s) in Hv.
  unfold ObjectIDFromHex. rewrite Hl.
  rewrite (string_forallb_impl is_lower_hex_digit is_hex_digit s
             lower_hex_digit_hex Hv).
  cbn [andb]. f_equal.
  apply (string_map_fix is_lower_hex_digit); [exact lower_hex_id | exact Hv].
Qed.

(** [primitive.ObjectIDFromHex] always yields an id in the form [Hex()]
    prints (the nil id on error); it fails exactly on strings that are not
    24 hexadecimal digits; and an id printed by [Hex()] parses back to
    itself without error. *)
Theorem ObjectIDFromHex_hex (s : string) :
  valid_hex_id (fst (ObjectIDFromHex s)) = true /\
  (snd (ObjectIDFromHex s) = None <->
   String.length s = 24%nat /\ string_forallb is_hex_digit s = true) /\
  (valid_hex_id s = true -> ObjectIDFromHex s = (s, None)).
Proof.
  unfold ObjectIDFromHex.
  destruct (Nat.eqb_spec (String.length s) 24) as [Hl | Hl]; cbn [andb].
  - destruct (string_forallb is_hex_digit s) eqn:Hh.
    + split; [| split].
      * unfold valid_hex_id. cbn [fst]. rewrite string_map_length, Hl.
        cbn [Nat.eqb andb].
        exact (string_forallb_map _ is_lower_hex_digit _ s lower_hex_lower Hh).
      * cbn. tauto.
      * intros Hv. unfold valid_hex_id in Hv.
        apply andb_true_iff in Hv as [_ Hv]. f_equal.
        apply (string_map_fix is_lower_hex_digit); [exact lower_hex_id | exact Hv].
    + split; [| split].
      * reflexivity.
      * cbn. split; [discriminate | intros [_ H]; discriminate H].
      * intros Hv. unfold valid_hex_id in Hv.
        apply andb_true_iff in Hv as [_ Hv].
        rewrite (string_forallb_impl is_lower_hex_digit is_hex_digit s
                   lower_hex_digit_hex Hv) in Hh.
        discriminate.
  - split; [| split].
    + reflexivity.
    + cbn. split; [discriminate | intros [H _]; contradiction].
    + intros Hv. unfold valid_hex_id in Hv.
      apply andb_true_iff in Hv as [Hv _]. apply Nat.eqb_eq in Hv.
      contradiction.
Qed.

(** *** Session statistics *)

Lemma completed_minutes_fold (sessions : list Session) :
  completed_minutes sessions
  = fold_right (fun s acc => SessionDuration s + acc) 0
      (filter is_completed sessions).
Proof. unfold completed_minutes. destruct (filter is_completed sessions); reflexivity. Qed.

Lemma fold_duration_app (l1 l2 : list Session) :
  fold_right (fun s acc => SessionDuration s + acc) 0 (l1 ++ l2)
  = fold_right (fun s acc => SessionDuration s + acc) 0 l1
    + fold_right (fun s acc => SessionDuration s + acc) 0 l2.
Proof. induction l1 as [| x l1 IH]; cbn; lia. Qed.

(** The streaks do not depend on the iteration order of the day map. *)
Lemma calculateStreaks_keys (loc : Streaks.Zone) (now : Z) (days keys1 keys2 : list Z) :
  Streaks.map_iteration days keys1 -> Streaks.map_iteration days keys2 ->
  Streaks.calculateStreaks loc now days keys1
  = Streaks.calculateStreaks loc now days keys2.
Proof.
  intros H1 H2. destruct days as [| d0 ds]; [reflexivity |].
  destruct H1 as [Hnd1 Hk1].
  destruct (StreakProofs.sortDescending_spec keys1) as [Hp Hs].
  rewrite (StreakProofs.calculateStreaks_sorted loc now _ keys2
             (Streaks.sortDescending keys1) H2); [| discriminate | | ].
  - unfold Streaks.calculateStreaks. reflexivity.
  - apply Hs. exact Hnd1.
  - intros x. rewrite <- Hk1.
    split; apply Permutation_in; [apply Permutation_sym |]; exact Hp.
Qed.

Lemma GetSessionStats_fields (loc : Streaks.Zone) (now : Z) (keys : list Z) (sessions : list Session) :
  TotalSessions (GetSessionStats loc now keys sessions)
  = Z.of_nat (List.length sessions) /\
  CompletedSessions (GetSessionStats loc now keys sessions)
  = Z.of_nat (List.length (filter is_completed sessions)) /\
  AbandonedSessions (GetSessionStats loc now keys sessions)
  = Z.of_nat (List.length sessions)
    - Z.of_nat (List.length (filter is_completed sessions)) /\
  TotalMinutes (GetSessionStats loc now keys sessions)
  = completed_minutes sessions /\
  (CurrentStreak (GetSessionStats loc now keys sessions),
   LongestStreak (GetSessionStats loc now keys sessions))
  = Streaks.calculateStreaks loc now (completed_days sessions) keys.
Proof.
  unfold GetSessionStats, completed_days.
  destruct (Streaks.calculateStreaks _ _ _); repeat split; reflexivity.
Qed.

(** Total sessions are the completed plus the abandoned ones, none of
    the counts negative.  Recording one more session adds one to the
    total; an abandoned one adds one to the abandoned count and leaves the
    completed count, the minutes and both streaks as they were (whatever
    order the day map yields its keys in); a completed one adds one to the
    completed count and its duration to the minutes. *)
Theorem stats_after_session (loc : Streaks.Zone) (now : Z) (keys keys' : list Z)
  (sessions : list Session) (s : Session) :
  Streaks.map_iteration (completed_days sessions) keys ->
  Streaks.map_iteration (completed_days (sessions ++ [s])) keys' ->
  let st := GetSessionStats loc now keys sessions in
  let st' := GetSessionStats loc now keys' (sessions ++ [s]) in
  TotalSessions st = CompletedSessions st + AbandonedSessions st /\
  0 <= CompletedSessions st /\ 0 <= AbandonedSessions st /\
  TotalSessions st' = TotalSessions st + 1 /\
  (Status s = StatusAbandoned ->
   CompletedSessions st' = CompletedSessions st /\
   AbandonedSessions st' = AbandonedSessions st + 1 /\
   TotalMinutes st' = TotalMinutes st /\
   CurrentStreak st' = CurrentStreak st /\
   LongestStreak st' = LongestStreak st) /\
  (Status s = StatusCompleted ->
   CompletedSessions st' = CompletedSessions st + 1 /\
   AbandonedSessions st' = AbandonedSessions st /\
   TotalMinutes st' = TotalMinutes st + SessionDuration s).
Proof.
  intros Hk Hk'. cbv zeta.
  destruct (GetSessionStats_fields loc now keys sessions)
    as (T & C & A & M & S).
  destruct (GetSessionStats_fields loc now keys' (sessions ++ [s]))
    as (T' & C' & A' & M' & S').
  rewrite T, C, A, T', C', A', M', M.
  rewrite filter_app, !length_app. cbn [List.length filter].
  pose proof (filter_length_le is_completed sessions) as Hle.
  split; [lia | split; [lia | split; [lia | split; [lia |]]]].
  split.
  - intros Hs.
    assert (Hc : is_completed s = false)
      by (unfold is_completed; rewrite Hs; reflexivity).
    rewrite Hc. cbn [List.length].
    split; [lia | split; [lia | split]].
    + rewrite !completed_minutes_fold, filter_app. cbn [filter].
      rewrite Hc, app_nil_r. reflexivity.
    + assert (Hd : completed_days (sessions ++ [s]) = completed_days sessions).
      { unfold completed_days. rewrite filter_app. cbn [filter].
        rewrite Hc, app_nil_r. reflexivity. }
      rewrite Hd in S', Hk'.
      rewrite (calculateStreaks_keys loc now _ keys' keys Hk' Hk) in S'.
      rewrite <- S in S'. injection S' as -> ->. split; reflexivity.
  - intros Hs.
    assert (Hc : is_completed s = true)
      by (unfold is_completed; rewrite Hs; reflexivity).
    rewrite Hc. cbn [List.length].
    split; [lia | split; [lia |]].
    rewrite !completed_minutes_fold, filter_app. cbn [filter].
    rewrite Hc, fold_duration_app. cbn. lia.
Qed.

(** *** Quotes for a subject *)

(** [GetRandomQuoteForSubject] reports an error, and returns no quote,
    exactly when the aggregation or the cursor read fails.  When they
    succeed it reports no error; it returns no quote exactly when no
    stored quote matches; a quote it returns is a stored one that is
    untagged or tagged with the subject (any quote for an empty subject
    name).  So when an untagged quote is stored and the query succeeds,
    the timer's [loadRandomQuote] shows a stored quote, not the built-in
    one. *)
Theorem random_quote_for_subject (quotes : list QuoteDoc) (name : string)
  (pick : nat) :
  (forall err, GetRandomQuoteForSubject quotes name (Some err) pick
               = (None, Some err)) /\
  snd (GetRandomQuoteForSubject quotes name None pick) = None /\
  (fst (GetRandomQuoteForSubject quotes name None pick) = None <->
   forall q, In q quotes -> quote_matches name q = false) /\
  (forall r, fst (GetRandomQuoteForSubject quotes name None pick) = Some r ->
   exists q, In q quotes /\ r = to_Quote q /\
     (name = "" \/ In name (qd_Subjects q) \/ qd_Subjects q = [])) /\
  (forall (P : Type) (m : @TimerModel P), (exists q, In q quotes /\ qd_Subjects q = []) ->
   exists q, In q quotes /\
     currentQuote (loadRandomQuote (GetRandomQuoteForSubject quotes name None pick) m)
     = qd_Text q).
Proof.
  assert (Hsome : forall r, fst (GetRandomQuoteForSubject quotes name None pick) = Some r ->
            exists q, In q quotes /\ quote_matches name q = true /\ r = to_Quote q).
  { intros r. unfold GetRandomQuoteForSubject.
    destruct (filter (quote_matches name) quotes) as [| c cs] eqn:E;
      [discriminate |].
    cbn [fst]. intros H. injection H as <-.
    set (i := Nat.modulo pick (List.length (c :: cs))).
    assert (Hi : (i < List.length (c :: cs))%nat)
      by (apply Nat.mod_upper_bound; cbn; lia).
    pose proof (nth_In (c :: cs) (List.hd (Build_QuoteDoc "" "" "" []) (c :: cs))
                  Hi) as Hin.
    rewrite <- E in Hin. apply filter_In in Hin as [Hin Hm].
    eexists. split; [exact Hin | split; [exact Hm |]]. rewrite E. reflexivity. }
  assert (Hnone : fst (GetRandomQuoteForSubject quotes name None pick) = None <->
            forall q, In q quotes -> quote_matches name q = false).
  { unfold GetRandomQuoteForSubject. split.
    - destruct (filter (quote_matches name) quotes) as [| c cs] eqn:E;
        [| discriminate].
      intros _ q Hq. destruct (quote_matches name q) eqn:Hm; [| reflexivity].
      assert (Hf : In q (filter (quote_matches name) quotes))
        by (apply filter_In; auto).
      rewrite E in Hf. contradiction.
    - intros H.
      assert (E : filter (quote_matches name) quotes = []).
      { destruct (filter (quote_matches name) quotes) as [| c cs] eqn:E;
          [reflexivity |].
        assert (Hc : In c (filter (quote_matches name) quotes))
          by (rewrite E; left; reflexivity).
        apply filter_In in Hc as [Hc Hm]. rewrite (H c Hc) in Hm. discriminate. }
      rewrite E. reflexivity. }
  split; [intros err; reflexivity |].
  split; [| split; [exact Hnone | split]].
  - unfold GetRandomQuoteForSubject.
    destruct (filter (quote_matches name) quotes); reflexivity.
  - intros r Hr. destruct (Hsome r Hr) as (q & Hq & Hm & ->).
    exists q. split; [exact Hq | split; [reflexivity |]].
    unfold quote_matches in Hm.
    destruct (String.eqb_spec name ""); [left; assumption | right].
    apply orb_true_iff in Hm as [Hm | Hm].
    + left. apply existsb_exists in Hm as (x & Hx & Hn).
      apply String.eqb_eq in Hn. subst x. exact Hx.
    + right. destruct (qd_Subjects q); [reflexivity | discriminate].
  - intros P m (q0 & Hq0 & Hu).
    destruct (fst (GetRandomQuoteForSubject quotes name None pick)) as [r |] eqn:Er.
    + destruct (Hsome r eq_refl) as (q & Hq & _ & ->).
      exists q. split; [exact Hq |].
      destruct (GetRandomQuoteForSubject quotes name None pick) as [r' e] eqn:Eg.
      cbn [fst] in Er. subst r'.
      assert (He : e = None).
      { pose proof (f_equal snd Eg) as Hs. cbn in Hs. rewrite <- Hs.
        unfold GetRandomQuoteForSubject.
        destruct (filter (quote_matches name) quotes); reflexivity. }
      subst e. reflexivity.
    + exfalso. pose proof (proj1 Hnone eq_refl q0 Hq0) as Hm.
      unfold quote_matches in Hm. rewrite Hu in Hm.
      destruct (String.eqb name ""); [discriminate |].
      rewrite orb_true_r in Hm. discriminate.
Qed.

(** *** Seeding without duplicates *)

Lemma find_app_last {A : Type} (p : A -> bool) (l : list A) (x : A) :
  find p l = None -> p x = true -> find p (l ++ [x]) = Some x.
Proof.
  induction l as [| y l IH]; cbn; [intros _ -> ; reflexivity |].
  destruct (p y); [discriminate | exact IH].
Qed.

Lemma NoDup_map_app_last {A K : Type} (key : A -> K) (l : list A) (x : A) :
  (forall y, In y l -> key y <> key x) ->
  NoDup (map key l) -> NoDup (map key (l ++ [x])).
Proof.
  intros Hn Hd. rewrite map_app. cbn.
  apply NoDup_app; [exact Hd | repeat constructor; auto |].
  intros k Hk [Hx | []]. subst k.
  apply in_map_iff in Hk as (y & Hy & Hin). exact (Hn y Hin Hy).
Qed.

Lemma find_none_key {A : Type} (f : A -> bool) (l : list A) :
  find f l = None -> forall y, In y l -> f y = false.
Proof. apply find_none. Qed.

(** Seeding subjects, quotes and poems is idempotent: once a call has
    created a document, a second call with the same key (subject name,
    quote text, or poem source and line reference) whose lookup succeeds
    finds it, creates nothing, reports no error and leaves the collection
    as it is, whatever the new id and whatever the insert would do; a
    collection whose keys are distinct keeps them distinct; and a lookup
    that fails reports its error and creates nothing. *)
Theorem if_not_exists_idempotent :
  (forall subs fe ok id name icon ok2 id2 icon2 s subs',
     AddSubjectIfNotExists subs fe ok id name icon = (Some s, true, None, subs') ->
     NoDup (map subject_Name subs) ->
     NoDup (map subject_Name subs') /\
     AddSubjectIfNotExists subs' false ok2 id2 name icon2
     = (Some s, false, None, subs')) /\
  (forall qs fe ok id text src tags ok2 id2 src2 tags2 q qs',
     AddQuoteIfNotExists qs fe ok id text src tags = (Some q, true, None, qs') ->
     NoDup (map qd_Text qs) ->
     NoDup (map qd_Text qs') /\
     AddQuoteIfNotExists qs' false ok2 id2 text src2 tags2
     = (Some q, false, None, qs')) /\
  (forall ps fe ok id oe me src lref ok2 id2 oe2 me2 p ps',
     AddPoemIfNotExists ps fe ok id oe me src lref = (Some p, true, None, ps') ->
     NoDup (map (fun p => (pd_Source p, pd_LineRef p)) ps) ->
     NoDup (map (fun p => (pd_Source p, pd_LineRef p)) ps') /\
     AddPoemIfNotExists ps' false ok2 id2 oe2 me2 src lref
     = (Some p, false, None, ps')) /\
  (forall subs ok id name icon,
     AddSubjectIfNotExists subs true ok id name icon
     = (None, false, Some "find failed", subs)) /\
  (forall qs ok id text src tags,
     AddQuoteIfNotExists qs true ok id text src tags
     = (None, false, Some "find failed", qs)) /\
  (forall ps ok id oe me src lref,
     AddPoemIfNotExists ps true ok id oe me src lref
     = (None, false, Some "find failed", ps)).
Proof.
  split; [| split; [| split; [| split; [| split]]]].
  - intros subs fe ok id name icon ok2 id2 icon2 s subs' H Hd.
    unfold AddSubjectIfNotExists in *.
    destruct fe; [discriminate |].
    destruct (find _ subs) as [e |] eqn:Ef; [discriminate |].
    destruct ok; [| discriminate].
    injection H as <- <-.
    split.
    + apply NoDup_map_app_last; [| exact Hd].
      intros y Hy Heq. pose proof (find_none_key _ _ Ef y Hy) as Hf.
      cbn in Heq, Hf. rewrite Heq, String.eqb_refl in Hf. discriminate.
    + rewrite (find_app_last _ _ _ Ef) by apply String.eqb_refl. reflexivity.
  - intros qs fe ok id text src tags ok2 id2 src2 tags2 q qs' H Hd.
    unfold AddQuoteIfNotExists in *.
    destruct fe; [discriminate |].
    destruct (find _ qs) as [e |] eqn:Ef; [discriminate |].
    destruct ok; [| discriminate].
    injection H as <- <-.
    split.
    + apply NoDup_map_app_last; [| exact Hd].
      intros y Hy Heq. pose proof (find_none_key _ _ Ef y Hy) as Hf.
      cbn in Heq, Hf. rewrite Heq, String.eqb_refl in Hf. discriminate.
    + rewrite (find_app_last _ _ _ Ef) by apply String.eqb_refl. reflexivity.
  - intros ps fe ok id oe me src lref ok2 id2 oe2 me2 p ps' H Hd.
    unfold AddPoemIfNotExists in *.
    destruct fe; [discriminate |].
    destruct (find _ ps) as [e |] eqn:Ef; [discriminate |].
    destruct ok; [| discriminate].
    injection H as <- <-.
    split.
    + apply NoDup_map_app_last; [| exact Hd].
      intros y Hy Heq. pose proof (find_none_key _ _ Ef y Hy) as Hf.
      cbn in Heq, Hf. injection Heq as H1 H2. rewrite H1, H2 in Hf.
      rewrite !String.eqb_refl in Hf. discriminate.
    + rewrite (find_app_last _ _ _ Ef)
        by (cbn; rewrite !String.eqb_refl; reflexivity).
      reflexivity.
  - intros. reflexivity.
  - intros. reflexivity.
  - intros. reflexivity.
Qed.

End DbProofs.

(** ** The application router and its screens *)
Section AppProofs.

Local Open Scope string_scope.
Local Open Scope list_scope.
Local Open Scope Z_scope.

Context {Progress TextInput : Type}.
Context (progress_New : Progress).
Context (progress_Update : Progress -> Progress * bool).
Context (ti_Value : TextInput -> string).
Context (ti_Reset ti_Focus ti_Blur : TextInput -> TextInput).
Context (ti_Update : TextInput -> string -> TextInput * AppCmd).
Context (ti_SubjectName ti_SubjectIcon ti_QuoteText ti_QuoteSource : TextInput).

Abbreviation AppUpdate :=
  (AppUpdate progress_New progress_Update ti_Value ti_Reset ti_Focus ti_Blur
     ti_Update ti_SubjectName ti_SubjectIcon ti_QuoteText ti_QuoteSource).
Abbreviation SubjectSelectUpdate :=
  (SubjectSelectUpdate ti_Value ti_Reset ti_Focus ti_Blur ti_Update).
Abbreviation QuotesUpdate :=
  (QuotesUpdate ti_Value ti_Reset ti_Focus ti_Blur ti_Update).

Ltac split_ifs :=
  repeat match goal with
  | |- context [if ?b then _ else _] =>
      let E := fresh "E" in destruct b eqn:E
  end.

(** On the subject list (not the add form), [enter] or space selects the
    subject under the cursor when the cursor is within the list, and does
    nothing otherwise; the screen is left as it is.  Whatever message the
    subject screen receives, a cursor that is not negative stays so. *)
Theorem subject_enter_selects (m : @SubjectSelectModel TextInput) (k : string) :
  0 <= ss_cursor m ->
  (ss_adding m = false -> In k ["enter"; " "] ->
   SubjectSelectUpdate m (ABase (KeyMsg k))
   = (m, match nth_error (subjects m) (Z.to_nat (ss_cursor m)) with
         | Some s => ACSubjectSelected s
         | None => ACNone
         end)) /\
  (forall msg, 0 <= ss_cursor (fst (SubjectSelectUpdate m msg))).
Proof.
  intros Hc. split.
  - intros Ha Hk. cbn [SubjectSelectUpdate]. rewrite Ha.
    assert (Hsel : (if (0 <? Z.of_nat (List.length (subjects m))) &&
                        (ss_cursor m <? Z.of_nat (List.length (subjects m)))
                    then match subject_at (subjects m) (ss_cursor m) with
                         | Some s => (m, ACSubjectSelected s)
                         | None => (m, ACNone)
                         end
                    else (m, ACNone))
                   = (m, match nth_error (subjects m) (Z.to_nat (ss_cursor m)) with
                         | Some s => ACSubjectSelected s
                         | None => ACNone
                         end)).
    { destruct (_ && _) eqn:Eb.
      - unfold subject_at. destruct (nth_error _ _); reflexivity.
      - rewrite (proj2 (nth_error_None (subjects m) (Z.to_nat (ss_cursor m))));
          [reflexivity |].
        apply andb_false_iff in Eb as [Eb | Eb]; apply Z.ltb_ge in Eb; lia. }
    destruct Hk as [<- | [<- | []]]; exact Hsel.
  - intros msg.
    destruct msg as [[k0 | | | |] | st se | c | s | | o | subs err | sa err
                    | qs err | qa err | err];
      cbn [SubjectSelectUpdate fst]; try exact Hc.
    + destruct (ss_adding m).
      * unfold ss_handleAddingInput.
        split_ifs; cbn; try exact Hc;
          try (destruct (ti_Update _ _); cbn; exact Hc).
      * split_ifs; cbn; try exact Hc; try lia;
        try (destruct (subject_at _ _); exact Hc).
    + destruct err; cbn; exact Hc.
    + destruct err as [e |]; [| destruct sa]; cbn; exact Hc.
Qed.

(** On the quotes list (not the add form), [d] or [delete] asks to delete
    the quote under the cursor when the cursor is within the list, and
    does nothing otherwise; the screen is left as it is.  Once a deletion
    has been tried, successful or not, the quotes are reloaded.  Whatever
    message the quotes screen receives, a cursor that is not negative
    stays so. *)
Theorem quote_delete_in_range (m : @QuotesModel TextInput) (k : string) :
  0 <= q_cursor m ->
  (q_adding m = false -> In k ["d"; "delete"] ->
   QuotesUpdate m (ABase (KeyMsg k))
   = (m, match nth_error (quotes m) (Z.to_nat (q_cursor m)) with
         | Some q => ACDeleteQuote (Db.qd_ID q)
         | None => ACNone
         end)) /\
  (forall err, snd (QuotesUpdate m (AQuoteDeleted err)) = ACLoadQuotes) /\
  (forall msg, 0 <= q_cursor (fst (QuotesUpdate m msg))).
Proof.
  intros Hc. split; [| split].
  - intros Ha Hk.
    assert (Hdel : (if 0 <? Z.of_nat (List.length (quotes m))
                    then (m, deleteCurrentQuote m) else (m, ACNone))
                   = (m, match nth_error (quotes m) (Z.to_nat (q_cursor m)) with
                         | Some q => ACDeleteQuote (Db.qd_ID q)
                         | None => ACNone
                         end)).
    { unfold deleteCurrentQuote.
      destruct (Z.ltb_spec 0 (Z.of_nat (List.length (quotes m)))) as [H0 | H0];
        destruct (Z.leb_spec (Z.of_nat (List.length (quotes m))) (q_cursor m))
          as [H1 | H1];
        try (destruct (nth_error _ _); reflexivity);
        rewrite (proj2 (nth_error_None (quotes m) (Z.to_nat (q_cursor m))));
        reflexivity || lia. }
    cbn [QuotesUpdate]. rewrite Ha.
    destruct Hk as [<- | [<- | []]]; exact Hdel.
  - intros [e |]; reflexivity.
  - intros msg.
    destruct msg as [[k0 | | | |] | st se | c | s | | o | subs err | sa err
                    | qs err | qa err | err];
      cbn [QuotesUpdate fst]; try exact Hc.
    + destruct (q_adding m).
      * unfold q_handleAddingInput.
        split_ifs; cbn; try exact Hc;
          try (destruct (ti_Update _ _); cbn; exact Hc).
      * split_ifs; cbn; try exact Hc; try lia.
    + destruct err; cbn; exact Hc.
    + destruct err as [e |]; [| destruct qa]; cbn; exact Hc.
    + destruct err; cbn; exact Hc.
Qed.

(** *** The router *)

Lemma loaders_displayMode (db : DbAnswer) (m : @TimerModel Progress) :
  displayMode (loadRandomQuote (quote_answer db) m) = displayMode m /\
  displayMode (loadRandomPoem (poem_answer db) m) = displayMode m.
Proof.
  destruct (quote_answer db) as [[q|] [e|]];
    destruct (poem_answer db) as [[p|] [e'|]]; split; reflexivity.
Qed.

(** Choosing a subject starts a 25-minute session on it, in the display
    mode chosen in the menu: the application shows the timer, which is
    the one a session started with those arguments has, running with
    1500 of 1500 seconds left, stamped with the subject's id and name and
    the current time, and its [Init] schedules one tick and one content
    rotation; nothing is written to the store. *)
Theorem subject_selected_starts_session (db : DbAnswer) (now : Z)
  (insert_ok : bool) (sessions : list Db.Session) (m : AppModel)
  (s : Db.Subject) :
  let '(m', c, ss) := AppUpdate db now insert_ok sessions m (ASubjectSelected s) in
  let rt := start_session progress_New db now 25 (Db.subject_ID s)
              (Db.subject_Name s) (menu_displayMode (menu m)) in
  currentView m' = TimerViewState /\ ss = sessions /\ menu m' = menu m /\
  timer m' = rt_timer rt /\ c = ACTimer (CmdBatch [CmdTick; CmdQuoteTick]) /\
  rt_pending rt = [TickMsg; QuoteTickMsg] /\ rt_outcomes rt = [] /\
  countdown (timer m') = (1500, 1500, true, false) /\
  displayMode (timer m') = menu_displayMode (menu m) /\
  session_fields (timer m') = (Db.subject_ID s, Db.subject_Name s, 1500, now).
Proof.
  cbn -[NewTimerModelWithMode]. unfold start_session. cbn -[NewTimerModelWithMode].
  repeat split.
  - rewrite NewTimerModelWithMode_countdown. reflexivity.
  - unfold NewTimerModelWithMode, GetDisplayMode.
    destruct (menu_displayMode (menu m)) eqn:Ed.
    all: first [rewrite (proj1 (loaders_displayMode db _))
               | rewrite (proj2 (loaders_displayMode db _))]; reflexivity.
  - rewrite NewTimerModelWithMode_fields. reflexivity.
Qed.

(** When a session run started from a subject with a well-formed id hands
    an outcome to the application, the application goes back to the menu,
    asks for fresh stats, and appends to the sessions collection (when the
    insert succeeds) one session carrying that subject's id and name, the
    25 minutes, the start time of the run, the completion time [now] and
    the status [completed] or [abandoned] of the outcome; when the insert
    fails the collection is unchanged. *)
Theorem timer_outcome_recorded (db0 db : DbAnswer) (now0 now : Z)
  (insert_ok : bool) (sessions : list Db.Session) (m : AppModel)
  (s : Db.Subject) (mode : DisplayMode) (tr : list (DbAnswer * Event))
  (o : TimerCompleteMsg) :
  Db.valid_hex_id (Db.subject_ID s) = true ->
  In o (rt_outcomes (run progress_Update tr
          (start_session progress_New db0 now0 25 (Db.subject_ID s)
             (Db.subject_Name s) mode))) ->
  AppUpdate db now insert_ok sessions m (ATimerComplete o)
  = (set_view m MenuViewState, ACLoadStats false,
     if insert_ok
     then sessions ++
            [{| Db.SessionSubjectID := Db.subject_ID s;
                Db.SessionSubjectName := Db.subject_Name s;
                Db.SessionDuration := 25;
                Db.Status := if Completed o then Db.StatusCompleted
                             else Db.StatusAbandoned;
                Db.SessionStartedAt := now0; Db.CompletedAt := now |}]
     else sessions).
Proof.
  intros Hv Hin.
  destruct (run_outcomes_fields progress_New progress_Update db0 now0 25
              (Db.subject_ID s) (Db.subject_Name s) mode tr o)
    as (Hid & Hname & Hdur & Hstart);
    [lia | unfold Int64.max_int; lia | exact Hin |].
  cbn [AppUpdate]. rewrite Hid, Hname, Hdur, Hstart.
  rewrite (DbProofs.ObjectIDFromHex_valid _ Hv).
  unfold Db.CreateSession. destruct insert_ok; reflexivity.
Qed.

(** The sessions collection is written only when a timer outcome arrives:
    every other message leaves it as it is.  The running timer is replaced
    only when a subject is chosen, and is otherwise stepped only while the
    timer view is shown: in any other view, every message but a subject
    choice leaves it untouched. *)
Theorem app_routing (db : DbAnswer) (now : Z) (insert_ok : bool)
  (sessions : list Db.Session) (m : AppModel) (msg : AppMsg) :
  (forall o, msg <> ATimerComplete o) ->
  let '(m', _, ss) := AppUpdate db now insert_ok sessions m msg in
  ss = sessions /\
  (currentView m <> TimerViewState -> (forall s, msg <> ASubjectSelected s) ->
   timer m' = timer m).
Proof.
  intros Hnot.
  destruct msg as [b | st se | c | s | | o | subs err | sa err
                  | qs err | qa err | err].
  6: exfalso; exact (Hnot o eq_refl).
  5: cbn [AppUpdate]; split; reflexivity.
  4: { cbn [AppUpdate]. split; [reflexivity |]. intros _ Hs.
       exfalso; exact (Hs s eq_refl). }
  2: cbn [AppUpdate]; split; reflexivity.
  2: { cbn [AppUpdate]. split_ifs; split; reflexivity. }
  all: cbn [AppUpdate]; destruct (currentView m) eqn:Ev;
    try (destruct (MenuUpdate _ _); split; reflexivity);
    try (destruct (SubjectSelectUpdate _ _); split; reflexivity);
    try (destruct (QuotesUpdate _ _); split; reflexivity);
    try (destruct (Update progress_Update db (timer m) _);
         split; [reflexivity | intros Hv; exfalso; exact (Hv eq_refl)]).
  all: try (destruct b as [k | | | |]; try destruct (_ || _); split; reflexivity).
  all: split; reflexivity.
Qed.

End AppProofs.

Module MainLoopProofs.

Import Main MainLoop.
Local Open Scope string_scope.
Local Open Scope list_scope.
Local Open Scope Z_scope.

Lemma model_Update_bounds (frame_cmd : Cmd) (m : model) (msg : Msg) :
  0 <= m_remainingSeconds m <= m_totalSeconds m ->
  m_totalSeconds m <= Int64.max_int ->
  let m' := fst (model_Update frame_cmd m msg) in
  m_totalSeconds m' = m_totalSeconds m /\
  0 <= m_remainingSeconds m' <= m_totalSeconds m'.
Proof.
  intros Hr Ht.
  destruct msg as [k | | | |]; cbn [model_Update].
  - destruct (String.eqb k "q" || String.eqb k "ctrl+c"); [cbn; lia |].
    destruct (String.eqb k " ").
    + destruct (m_running m); cbn; lia.
    + destruct (String.eqb k "r"); cbn; lia.
  - destruct (m_running m && (0 <? m_remainingSeconds m)) eqn:Hg; [| cbn; lia].
    apply andb_true_iff in Hg as [_ Hg]. apply Z.ltb_lt in Hg.
    assert (Hs : Int64.sub (m_remainingSeconds m) 1 = m_remainingSeconds m - 1).
    { unfold Int64.sub. apply wrap_small.
      unfold Int64.min_int, Int64.max_int in *. lia. }
    cbn [set_model m_remainingSeconds m_totalSeconds m_running]. rewrite Hs.
    destruct (m_remainingSeconds m - 1 <=? 0); cbn; lia.
  - cbn; lia.
  - cbn; lia.
  - cbn; lia.
Qed.

Lemma model_Update_paused (frame_cmd : Cmd) (m : model) (msg : Msg) :
  m_running m = false -> msg <> KeyMsg " " -> msg <> KeyMsg "r" ->
  fst (model_Update frame_cmd m msg) = m.
Proof.
  intros Hrun Hsp Hr.
  destruct msg as [k | | | |]; cbn [model_Update]; try reflexivity.
  - destruct (String.eqb k "q" || String.eqb k "ctrl+c"); [reflexivity |].
    destruct (String.eqb_spec k " ") as [-> | _]; [congruence |].
    destruct (String.eqb_spec k "r") as [-> | _]; [congruence | reflexivity].
  - rewrite Hrun. reflexivity.
Qed.

(** The countdown of the executable starts paused at one minute and, for
    any sequence of messages it receives, keeps its total at 60 seconds
    and its remaining time between 0 and 60 seconds.  It never starts by
    itself: the tick its [Init] schedules, and every other message, leave
    it paused at 60 seconds until a space or [r] key arrives. *)
Theorem main_countdown_bounds (frame_cmd : Cmd) (msgs : list Msg) :
  let m := fold_left (fun m msg => fst (model_Update frame_cmd m msg))
             msgs (newModel 1) in
  m_totalSeconds m = 60 /\ 0 <= m_remainingSeconds m <= 60 /\
  ((forall msg, In msg msgs -> msg <> KeyMsg " " /\ msg <> KeyMsg "r") ->
   m = newModel 1).
Proof.
  cbv zeta.
  assert (H : forall l m0, m_totalSeconds m0 = 60 ->
                0 <= m_remainingSeconds m0 <= 60 ->
                let m1 := fold_left (fun m msg => fst (model_Update frame_cmd m msg))
                            l m0 in
                m_totalSeconds m1 = 60 /\ 0 <= m_remainingSeconds m1 <= 60).
  { induction l as [| msg l IH]; intros m0 Ht Hr; [split; assumption |].
    cbn [fold_left].
    destruct (model_Update_bounds frame_cmd m0 msg) as [Ht' Hr'];
      [lia | unfold Int64.max_int; lia |].
    apply IH; lia. }
  destruct (H msgs (newModel 1)) as [Ht Hr]; [reflexivity | cbn; lia |].
  split; [exact Ht | split; [exact Hr |]].
  assert (Hp : forall l m0, m_running m0 = false ->
                 (forall msg, In msg l -> msg <> KeyMsg " " /\ msg <> KeyMsg "r") ->
                 fold_left (fun m msg => fst (model_Update frame_cmd m msg))
                   l m0 = m0).
  { induction l as [| msg l IH]; intros m0 Hrun Hk; [reflexivity |].
    cbn [fold_left].
    destruct (Hk msg (or_introl eq_refl)) as [Hsp Hr'].
    rewrite (model_Update_paused frame_cmd m0 msg Hrun Hsp Hr').
    apply IH; [exact Hrun |].
    intros msg' Hin. apply Hk. right. exact Hin. }
  intros Hk. apply Hp; [reflexivity | exact Hk].
Qed.

End MainLoopProofs.

(** * Instances of the further properties at concrete inputs *)

Local Open Scope list_scope.
Local Open Scope Z_scope.

Lemma longest_streak_bounds_witness :
  Streaks.calculateStreaks (fun _ => 0) 8643600 [100; 99; 99; 97] [97; 100; 99] = (2, 2) /\
  (let (cur, lon) := Streaks.calculateStreaks (fun _ => 0) 8643600 [100; 99; 99; 97]
                       [97; 100; 99] in
   1 <= lon <= 3 /\ cur <= 3).
Proof.
  split; [vm_compute; reflexivity |].
  apply (StreakBounds.longest_streak_bounds (fun _ => 0) 8643600 [100; 99; 99; 97]
           [97; 100; 99]).
  - split.
    + repeat constructor; simpl; lia.
    + intros d. simpl. intuition lia.
  - discriminate.
Defined.

Lemma session_outcomes_report_session_witness :
  let s := run still_progress_Update [(db_empty, EvKey "q"); (db_empty, EvKey "y")]
             (start_session tt db_empty 7 25 "s1" "GoLang" DisplayModeQuotes) in
  rt_outcomes s <> [] /\
  Completed (hd (Build_TimerCompleteMsg true "" "" 0 0) (rt_outcomes s)) = false /\
  Duration (hd (Build_TimerCompleteMsg true "" "" 0 0) (rt_outcomes s)) = 25.
Proof.
  cbv zeta.
  split; [vm_compute; discriminate | split; [vm_compute; reflexivity |]].
  apply (session_outcomes_report_session tt still_progress_Update db_empty 7 25
           "s1" "GoLang" DisplayModeQuotes
           [(db_empty, EvKey "q"); (db_empty, EvKey "y")]
           (hd (Build_TimerCompleteMsg true "" "" 0 0)
              (rt_outcomes (run still_progress_Update
                 [(db_empty, EvKey "q"); (db_empty, EvKey "y")]
                 (start_session tt db_empty 7 25 "s1" "GoLang"
                    DisplayModeQuotes)))));
    [lia | vm_compute; discriminate | vm_compute; left; reflexivity].
Defined.

Lemma resume_adds_tick_chain_witness :
  let s := run still_progress_Update [(db_empty, EvKey " ")]
             (start_session tt db_empty 0 1 "s1" "GoLang" DisplayModeQuotes) in
  rt_pending (rt_step still_progress_Update db_empty s (EvKey " "))
  = rt_pending s ++ [TickMsg] /\
  tcount (rt_pending (rt_step still_progress_Update db_empty s (EvKey " ")))
  = 2%nat.
Proof.
  cbv zeta. split; [| vm_compute; reflexivity].
  apply (proj1 (resume_adds_tick_chain still_progress_Update db_empty _)).
  vm_compute. reflexivity.
Defined.

Lemma timeDisplay_mmss_witness :
  TimerView.timeDisplay 1500 = "25:00" /\
  TimerView.read_mmss (TimerView.timeDisplay 1500) = Some 1500.
Proof.
  split; [vm_compute; reflexivity |].
  apply ViewProofs.timeDisplay_mmss. lia.
Defined.

Lemma truncate_spec_witness :
  Seed.truncate "Beowulf" 4 = Some "Beow..." /\
  exists t, Seed.truncate "Beowulf" 4 = Some t /\
            Z.of_nat (String.length t) <= 4 + 3.
Proof.
  split; [reflexivity |].
  destruct (proj1 (ViewProofs.truncate_spec "Beowulf" 4) ltac:(lia))
    as (t & H1 & _ & _ & H4).
  exists t. split; assumption.
Defined.

Lemma menu_invariant_witness :
  let m := fst (MenuUpdate (fst (MenuUpdate (fst (MenuUpdate (fst (MenuUpdate
             NewMenuModel (ABase (KeyMsg "down")))) (ABase (KeyMsg "j"))))
             (ABase (KeyMsg "down")))) (ABase (KeyMsg "enter"))) in
  cursor m = 3 /\ menu_displayMode m = DisplayModePoems /\
  text (nth 3 (choices m) {| icon := ""; text := "" |})
  = mode_label DisplayModePoems.
Proof.
  cbv zeta. split; [reflexivity | split; [reflexivity |]].
  apply (proj2 (proj2 (MenuProofs.menu_invariant _
    (menu_update _ (ABase (KeyMsg "enter"))
      (menu_update _ (ABase (KeyMsg "down"))
        (menu_update _ (ABase (KeyMsg "j"))
          (menu_update _ (ABase (KeyMsg "down")) menu_new))))))).
Defined.

Lemma toggle_twice_witness :
  icon (nth 3 (choices (set_cursor NewMenuModel 3)) {| icon := ""; text := "" |})
  = "📖" /\
  MenuUpdate (fst (MenuUpdate (set_cursor NewMenuModel 3) (ABase (KeyMsg "enter"))))
    (ABase (KeyMsg " "))
  = (updateDisplayModeText (set_cursor NewMenuModel 3), ACNone) /\
  icon (nth 3 (choices (updateDisplayModeText (set_cursor NewMenuModel 3)))
          {| icon := ""; text := "" |})
  = "💬".
Proof.
  split; [reflexivity | split; [| reflexivity]].
  apply (MenuProofs.toggle_twice (set_cursor NewMenuModel 3) "enter" " ");
    [reflexivity | left; reflexivity | right; left; reflexivity].
Defined.

Lemma ObjectIDFromHex_hex_witness :
  Db.ObjectIDFromHex "65a1b2c3d4e5f60718293a4b" = ("65a1b2c3d4e5f60718293a4b", None) /\
  Db.ObjectIDFromHex "65A1B2C3D4E5F60718293A4B" = ("65a1b2c3d4e5f60718293a4b", None).
Proof.
  split; [| vm_compute; reflexivity].
  apply (proj2 (proj2 (DbProofs.ObjectIDFromHex_hex "65a1b2c3d4e5f60718293a4b"))).
  vm_compute. reflexivity.
Defined.

Lemma stats_after_session_witness :
  Db.TotalMinutes (Db.GetSessionStats (fun _ => 0) 1728003600 [19999; 20000]
    [demo_session Db.StatusCompleted 19999; demo_session Db.StatusAbandoned 20000;
     demo_session Db.StatusCompleted 20000])
  = Db.TotalMinutes (Db.GetSessionStats (fun _ => 0) 1728003600 [19999]
      [demo_session Db.StatusCompleted 19999; demo_session Db.StatusAbandoned 20000])
    + 25.
Proof.
  destruct (DbProofs.stats_after_session (fun _ => 0) 1728003600 [19999] [19999; 20000]
    [demo_session Db.StatusCompleted 19999; demo_session Db.StatusAbandoned 20000]
    (demo_session Db.StatusCompleted 20000))
    as (_ & _ & _ & _ & _ & Hc).
  - split; [repeat constructor; simpl; lia |].
    intros d. vm_compute. intuition lia.
  - split; [repeat constructor; simpl; lia |].
    intros d. vm_compute. intuition lia.
  - apply Hc. reflexivity.
Defined.

Lemma random_quote_for_subject_witness :
  Db.GetRandomQuoteForSubject demo_quotes "GoLang" None 7
  = (Some {| quote_Text := "Simplicity is prerequisite for reliability.";
             quote_Source := "Dijkstra" |}, None) /\
  exists q, In q demo_quotes /\
    currentQuote (loadRandomQuote (Db.GetRandomQuoteForSubject demo_quotes "GoLang" None 7)
                    demo_timer) = Db.qd_Text q.
Proof.
  split; [vm_compute; reflexivity |].
  apply (proj2 (proj2 (proj2 (proj2
           (DbProofs.random_quote_for_subject demo_quotes "GoLang" 7))))).
  exists (nth 1 demo_quotes (Db.Build_QuoteDoc "" "" "" [])).
  split; [right; left; reflexivity | reflexivity].
Defined.

Lemma if_not_exists_idempotent_witness :
  Db.AddSubjectIfNotExists [] false true "s1" "GoLang" "💻"
  = (Some {| Db.subject_ID := "s1"; Db.subject_Name := "GoLang";
             Db.subject_Icon := "💻" |}, true, None,
     [{| Db.subject_ID := "s1"; Db.subject_Name := "GoLang";
         Db.subject_Icon := "💻" |}]) /\
  Db.AddSubjectIfNotExists
    [{| Db.subject_ID := "s1"; Db.subject_Name := "GoLang"; Db.subject_Icon := "💻" |}]
    false true "s2" "GoLang" "📚"
  = (Some {| Db.subject_ID := "s1"; Db.subject_Name := "GoLang";
             Db.subject_Icon := "💻" |}, false, None,
     [{| Db.subject_ID := "s1"; Db.subject_Name := "GoLang";
         Db.subject_Icon := "💻" |}]).
Proof.
  split; [reflexivity |].
  apply (proj1 (DbProofs.if_not_exists_idempotent) [] false true "s1" "GoLang" "💻"
           true "s2" "📚"); [reflexivity | constructor].
Defined.

Lemma subject_enter_selects_witness :
  SubjectSelectUpdate (fun t => t) (fun _ => "") (fun t => t) (fun t => t)
    plain_ti_Update demo_subject_screen (ABase (KeyMsg "enter"))
  = (demo_subject_screen,
     ACSubjectSelected {| Db.subject_ID := "s2"; Db.subject_Name := "Old English";
                          Db.subject_Icon := "📜" |}).
Proof.
  apply (proj1 (subject_enter_selects (fun t => t) (fun _ => "") (fun t => t)
           (fun t => t) plain_ti_Update demo_subject_screen "enter" ltac:(cbn; lia)));
    [reflexivity | left; reflexivity].
Defined.

Lemma quote_delete_in_range_witness :
  QuotesUpdate (fun t => t) (fun _ => "") (fun t => t) (fun t => t)
    plain_ti_Update demo_quotes_screen (ABase (KeyMsg "d"))
  = (demo_quotes_screen, ACDeleteQuote "q1").
Proof.
  apply (proj1 (quote_delete_in_range (fun t => t) (fun _ => "") (fun t => t)
           (fun t => t) plain_ti_Update demo_quotes_screen "d" ltac:(cbn; lia)));
    [reflexivity | left; reflexivity].
Defined.

Lemma timer_outcome_recorded_witness :
  AppUpdate tt still_progress_Update (fun t => t) (fun _ => "") (fun t => t)
    (fun t => t) plain_ti_Update "" "" "" "" db_empty 1600 true []
    (NewAppModel tt "") (ATimerComplete demo_outcome)
  = (set_view (NewAppModel tt "") MenuViewState, ACLoadStats false,
     [{| Db.SessionSubjectID := "65a1b2c3d4e5f60718293a4b";
         Db.SessionSubjectName := "GoLang"; Db.SessionDuration := 25;
         Db.Status := Db.StatusAbandoned; Db.SessionStartedAt := 7;
         Db.CompletedAt := 1600 |}]).
Proof.
  rewrite (timer_outcome_recorded tt still_progress_Update (fun t => t)
             (fun _ => "") (fun t => t) (fun t => t) plain_ti_Update "" "" "" ""
             db_empty db_empty 7 1600 true [] (NewAppModel tt "") demo_subject
             DisplayModeQuotes [(db_empty, EvKey "q"); (db_empty, EvKey "y")]
             demo_outcome);
    [| vm_compute; reflexivity | vm_compute; left; reflexivity].
  vm_compute. reflexivity.
Defined.

Lemma app_routing_witness :
  let '(m', _, ss) :=
    AppUpdate tt still_progress_Update (fun t => t) (fun _ => "") (fun t => t)
      (fun t => t) plain_ti_Update "" "" "" "" db_empty 1600 true
      [demo_session Db.StatusCompleted 0] (NewAppModel tt "")
      (ABase (KeyMsg "down")) in
  ss = [demo_session Db.StatusCompleted 0] /\
  timer m' = timer (@NewAppModel unit string tt "").
Proof.
  pose proof (app_routing tt still_progress_Update (fun t => t) (fun _ => "")
    (fun t => t) (fun t => t) plain_ti_Update "" "" "" "" db_empty 1600 true
    [demo_session Db.StatusCompleted 0] (NewAppModel tt "")
    (ABase (KeyMsg "down")) ltac:(discriminate)) as H.
  destruct (AppUpdate _ _ _ _ _ _ _ _ _ _ _ _ _ _ _ _ _) as [[m' c] ss].
  destruct H as [Hs Ht]. split; [exact Hs |].
  apply Ht; [discriminate | intros s; discriminate].
Defined.

Lemma main_countdown_bounds_witness :
  fold_left (fun m msg => fst (MainLoop.model_Update CmdNone m msg))
    [TickMsg; KeyMsg "x"; FrameMsg; TickMsg] (Main.newModel 1)
  = Main.newModel 1.
Proof.
  apply (proj2 (proj2 (MainLoopProofs.main_countdown_bounds CmdNone
           [TickMsg; KeyMsg "x"; FrameMsg; TickMsg]))).
  intros msg Hin. cbn in Hin.
  destruct Hin as [<- | [<- | [<- | [<- | []]]]]; split; discriminate.
Defined.
